(** * JSON-schema helper of the source acceptance tests

    A shallow embedding of
    [source_acceptance_test/utils/json_schema_helper.py]: the
    [CatalogField] class, the [JsonSchemaHelper] class and the two
    structure projectors [get_object_structure] and
    [get_expected_schema_structure].

    Schemas and records are the values [json.load] produces: [None],
    booleans, integers, strings, lists and dictionaries with string keys.
    Dictionaries are association lists in insertion order with pairwise
    distinct keys, which is the order Python iterates them in.  Floating
    point numbers are left out; no function below inspects a number.
    Strings are sequences of bytes: on ASCII text, which the keywords,
    pointers and paths of a schema are, a byte is a character of the
    Python [str]; a [str] with other characters is iterated by code point
    in Python and by byte of its UTF-8 encoding here.

    Python exceptions are values of [exn]; a computation that may raise
    has type [result A].  The three third-party calls ([pendulum.parse],
    [dpath.util.get], [JsonRef.replace_refs]) are parameters of the
    sections that use them. *)

From Stdlib Require Import List String Ascii ZArith Bool Lia.
Import ListNotations.

Local Open Scope string_scope.
Local Open Scope list_scope.

(** ** Values *)

Unset Elimination Schemes.

Inductive json : Type :=
| JNull
| JBool (b : bool)
| JNum (n : Z)
| JStr (s : string)
| JList (xs : list json)
| JDict (kvs : list (string * json)).

Set Elimination Schemes.

(** ** Exceptions and the error monad *)

Inductive exn : Type :=
| KeyError
| TypeError
| AttributeError
| IndexError
| ValueError       (* raised by [CatalogField._parse_value] *)
| AssertionError   (* a failed [assert] *)
| ParserError      (* raised inside [pendulum.parse] *)
| RecursionError.  (* the recursion budget of a fuelled function ran out *)

Inductive result (A : Type) : Type :=
| Ok (a : A)
| Raise (e : exn).

Arguments Ok {A} a.
Arguments Raise {A} e.

Definition bind {A B : Type} (m : result A) (k : A -> result B) : result B :=
  match m with
  | Ok a => k a
  | Raise e => Raise e
  end.

Notation "x <- m ;; k" := (bind m (fun x => k))
  (at level 61, m at next level, right associativity).

Definition exn_eqb (a b : exn) : bool :=
  match a, b with
  | KeyError, KeyError | TypeError, TypeError
  | AttributeError, AttributeError | IndexError, IndexError
  | ValueError, ValueError | AssertionError, AssertionError
  | ParserError, ParserError | RecursionError, RecursionError => true
  | _, _ => false
  end.

(** [try: body except e: handler] *)
Definition try_except {A : Type} (body : result A) (e : exn)
    (handler : result A) : result A :=
  match body with
  | Ok a => Ok a
  | Raise e' => if exn_eqb e e' then handler else Raise e'
  end.

(** [assert cond] *)
Definition py_assert (cond : bool) : result unit :=
  if cond then Ok tt else Raise AssertionError.

(** [mapM] in the error monad: a list comprehension whose body may raise. *)
Fixpoint traverse {A B : Type} (f : A -> result B) (xs : list A)
    : result (list B) :=
  match xs with
  | [] => Ok []
  | x :: r => y <- f x ;; ys <- traverse f r ;; Ok (y :: ys)
  end.

(** ** Python primitives on JSON values *)

Module Py.

(** Strings. *)

(** [needle in hay] for two strings. *)
Fixpoint contains (needle hay : string) : bool :=
  match hay with
  | EmptyString => prefix needle hay
  | String _ rest => prefix needle hay || contains needle rest
  end.

(** [s.split(sep)] for a one-character separator. *)
Fixpoint split (sep : ascii) (s : string) : list string :=
  match s with
  | EmptyString => [EmptyString]
  | String c rest =>
      if Ascii.eqb c sep then EmptyString :: split sep rest
      else match split sep rest with
           | [] => [String c EmptyString]
           | w :: ws => String c w :: ws
           end
  end.

(** [s.replace(old, new)] for a non-empty [old]: every occurrence of
    [old], found from left to right without overlap, becomes [new].
    [skip] counts the characters of a found occurrence still to drop. *)
Fixpoint replace_from (old new : string) (skip : nat) (s : string)
    : string :=
  match s with
  | EmptyString => EmptyString
  | String c rest =>
      match skip with
      | S k => replace_from old new k rest
      | O =>
          if prefix old s
          then (new ++ replace_from old new (String.length old - 1) rest)%string
          else String c (replace_from old new 0 rest)
      end
  end.

Definition replace (old new s : string) : string :=
  replace_from old new 0 s.

(** [sep.join(xs)]: every item must be a [str]. *)
Fixpoint join (sep : string) (xs : list json) : result string :=
  match xs with
  | [] => Ok EmptyString
  | JStr s :: [] => Ok s
  | JStr s :: r => t <- join sep r ;; Ok (s ++ sep ++ t)%string
  | _ :: _ => Raise TypeError
  end.

(** Dictionaries. *)

Fixpoint assoc (k : string) (kvs : list (string * json)) : option json :=
  match kvs with
  | [] => None
  | (k', v) :: r => if String.eqb k k' then Some v else assoc k r
  end.

Definition keys (kvs : list (string * json)) : list string :=
  map fst kvs.

Definition mem (k : string) (ks : list string) : bool :=
  existsb (String.eqb k) ks.

(** Truth value of a value, as [if v:], [not v] and [a or b] read it. *)
Definition truthy (v : json) : bool :=
  match v with
  | JNull => false
  | JBool b => b
  | JNum n => negb (Z.eqb n 0)
  | JStr s => negb (String.eqb s EmptyString)
  | JList xs => match xs with [] => false | _ => true end
  | JDict kvs => match kvs with [] => false | _ => true end
  end.

Definition hashable (v : json) : bool :=
  match v with
  | JList _ | JDict _ => false
  | _ => true
  end.

(** [a == b] on hashable values ([True == 1] and [False == 0]). *)
Definition atom_eqb (a b : json) : bool :=
  match a, b with
  | JNull, JNull => true
  | JBool x, JBool y => Bool.eqb x y
  | JNum x, JNum y => Z.eqb x y
  | JBool x, JNum y | JNum y, JBool x => Z.eqb (if x then 1 else 0) y
  | JStr x, JStr y => String.eqb x y
  | _, _ => false
  end.

(** Sequence indexing with Python's negative indices. *)
Definition index {A : Type} (xs : list A) (i : Z) : result A :=
  let n := Z.of_nat (List.length xs) in
  let j := if Z.ltb i 0 then Z.add i n else i in
  if Z.ltb j 0 then Raise IndexError
  else match nth_error xs (Z.to_nat j) with
       | Some x => Ok x
       | None => Raise IndexError
       end.

Definition chars (s : string) : list json :=
  map (fun c => JStr (String c EmptyString)) (list_ascii_of_string s).

(** [obj[key]] *)
Definition getitem (obj key : json) : result json :=
  match obj with
  | JDict kvs =>
      match key with
      | JStr k =>
          match assoc k kvs with
          | Some v => Ok v
          | None => Raise KeyError
          end
      | JList _ | JDict _ => Raise TypeError
      | _ => Raise KeyError
      end
  | JList xs =>
      match key with
      | JNum i => index xs i
      | JBool b => index xs (if b then 1 else 0)
      | _ => Raise TypeError
      end
  | JStr s =>
      match key with
      | JNum i => index (chars s) i
      | JBool b => index (chars s) (if b then 1 else 0)
      | _ => Raise TypeError
      end
  | _ => Raise TypeError
  end.

(** [x in c] for a string [x]: key of a mapping, element of a list,
    substring of a string; anything else is not a container. *)
Definition contains_str (x : string) (c : json) : result bool :=
  match c with
  | JDict kvs => Ok (mem x (keys kvs))
  | JList xs => Ok (existsb (atom_eqb (JStr x)) xs)
  | JStr s => Ok (contains x s)
  | _ => Raise TypeError
  end.

(** [d.get(k, default)]: only a mapping has the method. *)
Definition get (d : json) (k : string) (default : json) : result json :=
  match d with
  | JDict kvs =>
      Ok (match assoc k kvs with Some v => v | None => default end)
  | _ => Raise AttributeError
  end.

(** [for item in v]: the items in order. *)
Definition iter (v : json) : result (list json) :=
  match v with
  | JList xs => Ok xs
  | JDict kvs => Ok (map JStr (keys kvs))
  | JStr s => Ok (chars s)
  | _ => Raise TypeError
  end.

(** [set(xs)]: the distinct items of [xs].  A Python set has no order;
    the list keeps the first occurrence of each item and is only read
    through membership. *)
Fixpoint dedup (xs : list json) : list json :=
  match xs with
  | [] => []
  | x :: r =>
      let r' := dedup r in
      x :: filter (fun y => negb (atom_eqb x y)) r'
  end.

Definition set (xs : list json) : result (list json) :=
  if forallb hashable xs then Ok (dedup xs) else Raise TypeError.

(** [s in xs] for a string [s] and the items [xs] of a list or a set. *)
Definition mem_str (s : string) (xs : list json) : bool :=
  existsb (atom_eqb (JStr s)) xs.

(** [v in xs] for a list [xs] of strings. *)
Definition mem_str_of (v : json) (xs : list string) : bool :=
  existsb (fun s => atom_eqb v (JStr s)) xs.

(** [reduce(lambda data, key: data[key], path, obj)], which is also the
    loop [for segment in path: node = node[segment]]. *)
Fixpoint reduce_getitem (path : list json) (obj : json) : result json :=
  match path with
  | [] => Ok obj
  | key :: r => data <- getitem obj key ;; reduce_getitem r data
  end.

(** [v if isinstance(v, list) else [v]] *)
Definition as_list (v : json) : list json :=
  match v with
  | JList xs => xs
  | _ => [v]
  end.

(** [d.keys()]: only a mapping has the method. *)
Definition dict_keys (d : json) : result (list string) :=
  match d with
  | JDict kvs => Ok (keys kvs)
  | _ => Raise AttributeError
  end.

(** [isinstance(v, (list, dict))] *)
Definition is_list_or_dict (v : json) : bool :=
  match v with
  | JList _ | JDict _ => true
  | _ => false
  end.

(** [set.intersection] applied to the unpacked list [sets] of sets of
    strings: at least one set is required. *)
Definition set_intersection (sets : list (list string))
    : result (list string) :=
  match sets with
  | [] => Raise TypeError
  | first :: others =>
      Ok (filter (fun k => forallb (mem k) others) first)
  end.

(** A [for] loop whose body threads a state and may raise. *)
Fixpoint for_each {A S : Type} (body : A -> S -> result S) (xs : list A)
    (s : S) : result S :=
  match xs with
  | [] => Ok s
  | x :: r => s' <- body x s ;; for_each body r s'
  end.

End Py.

(** ** [class CatalogField] *)

(** What [CatalogField.parse] returns: the record's value as it is, or the
    native date-time [pendulum.parse] built from it. *)
Inductive parsed (DateTime : Type) : Type :=
| Raw (v : json)
| Native (d : DateTime).

Arguments Raw {DateTime} v.
Arguments Native {DateTime} d.

Module CatalogField.

Record t : Type := mk {
  schema : json;
  path : list json;
  formats : list json   (* a set, see [Py.set] *)
}.

(** [_detect_formats].  Python evaluates the default [self.schema["type"]]
    before it calls [get], so a schema with no ["type"] raises [KeyError]
    whether or not it has a ["format"]; the handler leaves [format_]
    empty.  A schema that is no mapping has no [get] method. *)
Definition _detect_formats (schema : json) : result (list json) :=
  let format_ := [] in
  format_ <-
    try_except
      (match schema with
       | JDict _ =>
           default <- Py.getitem schema (JStr "type") ;;
           format_ <- Py.get schema "format" default ;;
           Ok (Py.as_list format_)
       | _ => Raise AttributeError
       end)
      KeyError (Ok format_) ;;
  Py.set format_.

(** [__init__] *)
Definition init (schema : json) (path : list json) : result t :=
  formats <- _detect_formats schema ;;
  Ok (mk schema path formats).

Definition temporal : list string := ["datetime"; "date-time"; "date"].

(** [self.formats.intersection({"datetime", "date-time", "date"})] read as
    a condition: the intersection is not empty. *)
Definition is_temporal (formats : list json) : bool :=
  existsb (fun s => Py.mem_str s formats) temporal.

Section Parse.

Variable DateTime : Type.

(** [pendulum.parse] *)
Variable pendulum_parse : string -> result DateTime.

(** [_parse_value].  Only a [str] has [startswith]: any other value,
    [None] included, raises [AttributeError] there. *)
Definition _parse_value (self : t) (value : json) : result (parsed DateTime) :=
  if is_temporal (formats self) then
    if match value with JNull => true | _ => false end
       && negb (Py.mem_str "null" (formats self))
    then Raise ValueError
    else
      match value with
      | JStr s =>
          let s :=
            if prefix "0000-00-00" s
            then Py.replace "0000-00-00" "0001-01-01" s
            else s in
          d <- pendulum_parse s ;;
          Ok (Native d)
      | _ => Raise AttributeError
      end
  else Ok (Raw value).

(** [path or self.path] *)
Definition path_or (path : option (list json)) (self_path : list json)
    : list json :=
  match path with
  | Some (_ :: _ as p) => p
  | Some [] | None => self_path
  end.

(** [parse] *)
Definition parse (self : t) (record : json) (path : option (list json))
    : result (parsed DateTime) :=
  let path := path_or path (CatalogField.path self) in
  value <- Py.reduce_getitem path record ;;
  _parse_value self value.

End Parse.

End CatalogField.

(** ** [class JsonSchemaHelper] *)

Module JsonSchemaHelper.

(** [get_ref]: [path] is the value of a ["$ref"] key; only a [str] has
    [split]. *)
Definition get_ref (_schema : json) (path : json) : result json :=
  match path with
  | JStr p => Py.reduce_getitem (map JStr (tl (Py.split "/" p))) _schema
  | _ => Raise AttributeError
  end.

(** The loop of [get_property], from the node it has reached. *)
Fixpoint get_property_from (_schema node : json) (path : list json)
    : result json :=
  match path with
  | [] => Ok node
  | segment :: r =>
      has_ref <- Py.contains_str "$ref" node ;;
      node <- (if has_ref : bool
               then ref <- Py.getitem node (JStr "$ref") ;; get_ref _schema ref
               else Ok node) ;;
      properties <- Py.getitem node (JStr "properties") ;;
      node <- Py.getitem properties segment ;;
      get_property_from _schema node r
  end.

Definition get_property (_schema : json) (path : list json) : result json :=
  get_property_from _schema _schema path.

Definition field (_schema : json) (path : list json)
    : result CatalogField.t :=
  node <- get_property _schema path ;;
  CatalogField.init node path.

(** [path and path[-1] in ["oneOf", "anyOf"]] *)
Definition is_variant_path (path : list json) : bool :=
  match rev path with
  | [] => false
  | last :: _ => Py.mem_str_of last ["oneOf"; "anyOf"]
  end.

(** The closure [traverse_schema] of [find_variant_paths], returning the
    paths it appends to [variant_paths], in order.  The loop variable
    [item] is a key of a mapping and an element (not an index) of a list;
    [next_obj] is the value under the key, or the element. *)
Fixpoint traverse_schema (_schema : json) (path : list json) {struct _schema}
    : list (list json) :=
  (if is_variant_path path then [path] else []) ++
  match _schema with
  | JDict kvs =>
      (fix loop (kvs : list (string * json)) : list (list json) :=
         match kvs with
         | [] => []
         | (item, next_obj) :: r =>
             (if Py.is_list_or_dict next_obj
              then traverse_schema next_obj (path ++ [JStr item])
              else []) ++ loop r
         end) kvs
  | JList xs =>
      (fix loop (xs : list json) : list (list json) :=
         match xs with
         | [] => []
         | item :: r =>
             (if Py.is_list_or_dict item
              then traverse_schema item (path ++ [item])
              else []) ++ loop r
         end) xs
  | _ => []
  end.

(** [find_variant_paths].  The first call iterates [self._schema]
    whatever it is: the characters of a string are no list or dict, and
    [None], a boolean or a number cannot be iterated. *)
Definition find_variant_paths (_schema : json) : result (list (list json)) :=
  match _schema with
  | JDict _ | JList _ => Ok (traverse_schema _schema [])
  | JStr _ => Ok []
  | _ => Raise TypeError
  end.

Section Validate.

(** [dpath.util.get(obj, glob)] *)
Variable dpath_get : json -> string -> result json.

Definition get_top_level_item (_schema : json) (variant_path : list json)
    : result json :=
  let path_to_schema_obj := removelast variant_path in
  glob <- Py.join "/" path_to_schema_obj ;;
  dpath_get _schema glob.

(** [all(["const" in var["properties"][prop] for var in variants])] *)
Definition const_in_all (variants : list json) (prop : string)
    : result bool :=
  flags <- traverse
             (fun var =>
                properties <- Py.getitem var (JStr "properties") ;;
                node <- Py.getitem properties (JStr prop) ;;
                Py.contains_str "const" node)
             variants ;;
  Ok (forallb (fun b => b) flags).

(** The body of the loop of [validate_variant_paths]. *)
Definition validate_variant_path (_schema : json) (variant_path : list json)
    : result unit :=
  top_level_obj <- get_top_level_item _schema variant_path ;;
  has_ref <- Py.contains_str "$ref" top_level_obj ;;
  top_level_obj <-
    (if has_ref : bool
     then
       ref <- Py.getitem top_level_obj (JStr "$ref") ;;
       obj_def <- match ref with
                  | JStr r => Ok (last (Py.split "/" r) EmptyString)
                  | _ => Raise AttributeError
                  end ;;
       definitions <- Py.getitem _schema (JStr "definitions") ;;
       Py.getitem definitions (JStr obj_def)
     else Ok top_level_obj) ;;
  type <- Py.get top_level_obj "type" JNull ;;
  _ <- py_assert (Py.atom_eqb type (JStr "object")) ;;
  glob <- Py.join "/" variant_path ;;
  variants <- dpath_get _schema glob ;;
  variants <- Py.iter variants ;;
  _ <- Py.for_each
         (fun variant _ =>
            has <- Py.contains_str "properties" variant ;; py_assert has)
         variants tt ;;
  variant_props <- traverse
                     (fun v =>
                        properties <- Py.getitem v (JStr "properties") ;;
                        Py.dict_keys properties)
                     variants ;;
  common_props <- Py.set_intersection variant_props ;;
  _ <- py_assert (match common_props with [] => false | _ => true end) ;;
  flags <- traverse (const_in_all variants) common_props ;;
  py_assert (existsb (fun b => b) flags).

Definition validate_variant_paths (_schema : json)
    (variant_paths : list (list json)) : result unit :=
  Py.for_each (fun variant_path _ => validate_variant_path _schema variant_path)
    variant_paths tt.

End Validate.

End JsonSchemaHelper.

(** ** Structure projectors *)

(** The closure [_traverse_obj_and_get_path] of [get_object_structure],
    returning the paths it appends to [pathes], in order. *)
Fixpoint _traverse_obj_and_get_path (obj : json) (path : string) {struct obj}
    : list string :=
  match obj with
  | JDict kvs =>
      (fix items (kvs : list (string * json)) : list string :=
         match kvs with
         | [] => []
         | (k, v) :: r =>
             _traverse_obj_and_get_path v (path ++ "/" ++ k)%string ++ items r
         end) kvs
  | JList (first :: _) =>
      _traverse_obj_and_get_path first (path ++ "/[]")%string
  | _ => [path]
  end.

Definition get_object_structure (obj : json) : list string :=
  _traverse_obj_and_get_path obj EmptyString.

(** [{"type": "object", **s}]: the key ["type"] comes first and keeps the
    value [s] gives it, if any; only a mapping can be unpacked. *)
Definition as_object (s : json) : result json :=
  match s with
  | JDict kvs =>
      let type := match Py.assoc "type" kvs with
                  | Some v => v
                  | None => JStr "object"
                  end in
      Ok (JDict (("type", type)
                 :: filter (fun kv => negb (String.eqb (fst kv) "type")) kvs))
  | _ => Raise TypeError
  end.

(** The closure [_scan_schema] of [get_expected_schema_structure], as a
    transformer of the list [pathes].  It calls itself on a dictionary it
    builds, so the recursion is bounded by [fuel]. *)
Fixpoint _scan_schema (fuel : nat) (subschema : json) (path : string)
    (pathes : list string) : result (list string) :=
  match fuel with
  | O => Raise RecursionError
  | S fuel =>
      has_one <- Py.contains_str "oneOf" subschema ;;
      has_variant <- (if has_one : bool then Ok true
                      else Py.contains_str "anyOf" subschema) ;;
      if has_variant : bool then
        one_of <- Py.get subschema "oneOf" JNull ;;
        branches <- (if Py.truthy one_of then Ok one_of
                     else Py.get subschema "anyOf" JNull) ;;
        branches <- Py.iter branches ;;
        Py.for_each
          (fun s pathes =>
             branch <- as_object s ;; _scan_schema fuel branch path pathes)
          branches pathes
      else
        schema_type <- Py.get subschema "type" (JList [JStr "null"]) ;;
        let schema_type := Py.as_list schema_type in
        if Py.mem_str "object" schema_type then
          props <- Py.get subschema "properties" JNull ;;
          if negb (Py.truthy props) then Ok (pathes ++ [path])
          else
            match props with
            | JDict kvs =>
                Py.for_each
                  (fun kv pathes =>
                     _scan_schema fuel (snd kv)
                       (path ++ "/" ++ fst kv)%string pathes)
                  kvs pathes
            | _ => Raise AttributeError
            end
        else if Py.mem_str "array" schema_type then
          items <- Py.get subschema "items" (JDict []) ;;
          _scan_schema fuel items (path ++ "/[]")%string pathes
        else Ok (pathes ++ [path])
  end.

(** The nesting depth of a value: the recursion budget [_scan_schema]
    needs on it (lemma [_scan_schema_fuel]). *)
Fixpoint depth (v : json) : nat :=
  match v with
  | JList xs =>
      S ((fix deepest (xs : list json) : nat :=
            match xs with
            | [] => 0
            | x :: r => Nat.max (depth x) (deepest r)
            end) xs)
  | JDict kvs =>
      S ((fix deepest (kvs : list (string * json)) : nat :=
            match kvs with
            | [] => 0
            | kv :: r => Nat.max (depth (snd kv)) (deepest r)
            end) kvs)
  | _ => 1
  end.

Section ExpectedStructure.

(** [JsonRef.replace_refs].  Its result is a finite tree here, every
    reference replaced by a copy of its target, and the scan is given the
    depth of that tree as its budget.  For a schema that refers to itself
    JsonRef returns proxies that form a cycle, on which the scan recurses
    until Python raises [RecursionError]: such schemas are outside this
    model. *)
Variable replace_refs : json -> result json.

Definition get_expected_schema_structure (schema : json)
    : result (list string) :=
  schema <- replace_refs schema ;;
  _scan_schema (depth schema) schema EmptyString [].

End ExpectedStructure.

(** ** Induction on values *)

Section JsonInd.

Variable P : json -> Prop.
Hypothesis Hnull : P JNull.
Hypothesis Hbool : forall b, P (JBool b).
Hypothesis Hnum : forall n, P (JNum n).
Hypothesis Hstr : forall s, P (JStr s).
Hypothesis Hlist : forall xs, Forall P xs -> P (JList xs).
Hypothesis Hdict :
  forall kvs, Forall (fun kv => P (snd kv)) kvs -> P (JDict kvs).

Fixpoint json_ind (v : json) : P v :=
  match v with
  | JNull => Hnull
  | JBool b => Hbool b
  | JNum n => Hnum n
  | JStr s => Hstr s
  | JList xs =>
      Hlist xs
        ((fix all (xs : list json) : Forall P xs :=
            match xs with
            | [] => Forall_nil P
            | x :: r => Forall_cons x (json_ind x) (all r)
            end) xs)
  | JDict kvs =>
      Hdict kvs
        ((fix all (kvs : list (string * json))
            : Forall (fun kv => P (snd kv)) kvs :=
            match kvs with
            | [] => Forall_nil _
            | kv :: r => Forall_cons kv (json_ind (snd kv)) (all r)
            end) kvs)
  end.

End JsonInd.

(** * Reference definitions and sample data *)

(** ** Fields and records *)

(** A stand-in for [pendulum.parse] that returns the string it is given:
    its result shows what [_parse_value] passed on. *)
Definition echo_parse (s : string) : result string := Ok s.

Definition date_time_schema : json :=
  JDict [("type", JStr "string"); ("format", JStr "date-time")].

(** The number of ["-"] characters of a string.  What follows the date in
    an ISO-8601 date-time, the time of day with its fraction and zone
    offset (["T00:00:00"], ["T12:30:00.5Z"], ["T12:30:00-05:00"]), has at
    most one. *)
Fixpoint dashes (s : string) : nat :=
  match s with
  | EmptyString => 0
  | String c rest => (if Ascii.eqb c "-" then 1 else 0) + dashes rest
  end.

Definition date_time_field : CatalogField.t :=
  CatalogField.mk date_time_schema [JStr "updated_at"] [JStr "date-time"].

Definition nullable_date_time_schema : json :=
  JDict [("type", JStr "string");
         ("format", JList [JStr "date-time"; JStr "null"])].

Definition nullable_date_time_field : CatalogField.t :=
  CatalogField.mk nullable_date_time_schema [JStr "updated_at"]
    [JStr "date-time"; JStr "null"].

Definition null_record : json := JDict [("updated_at", JNull)].

(** ** Navigation *)

(** Descent by hand, as the spec words it: [node["properties"][segment]]
    for each segment of the path, with no reference followed. *)
Fixpoint descend_properties (node : json) (path : list json) : result json :=
  match path with
  | [] => Ok node
  | segment :: r =>
      properties <- Py.getitem node (JStr "properties") ;;
      child <- Py.getitem properties segment ;;
      descend_properties child r
  end.

(** [node] does not carry ["$ref"]: the test ["$ref" in node] is not
    true.  It is false, or [node] is [None], a boolean or a number and the
    test raises. *)
Definition ref_free (node : json) : bool :=
  match Py.contains_str "$ref" node with
  | Ok true => false
  | _ => true
  end.

(** No node strictly inside the descent from [node] along [path] carries
    a ["$ref"]: the nodes reached after each segment but the last. *)
Fixpoint ref_free_inside (node : json) (path : list json) : bool :=
  match path with
  | [] => true
  | segment :: r =>
      match (properties <- Py.getitem node (JStr "properties") ;;
             Py.getitem properties segment) with
      | Ok child =>
          match r with
          | [] => true
          | _ :: _ => ref_free child && ref_free_inside child r
          end
      | Raise _ => true
      end
  end.

(** A schema whose root refers to one of its definitions. *)
Definition user_node : json :=
  JDict [("properties",
          JDict [("id", JDict [("type", JStr "integer")]);
                 ("address",
                  JDict [("properties",
                          JDict [("city", JDict [("type", JStr "string")])])])])].

Definition root_ref_schema : json :=
  JDict [("$ref", JStr "#/definitions/user");
         ("definitions", JDict [("user", user_node)])].

(** A schema with a second reference, on an inner node that also has
    ["properties"] of its own. *)
Definition inner_ref_schema : json :=
  JDict [("$ref", JStr "#/definitions/user");
         ("definitions",
          JDict [("user",
                  JDict [("properties",
                          JDict [("home",
                                  JDict [("$ref", JStr "#/definitions/place");
                                         ("properties",
                                          JDict [("city", JStr "here")])])])]);
                 ("place",
                  JDict [("properties",
                          JDict [("city", JStr "there")])])])].

(** ** Variant discovery *)

(** The two loops of [traverse_schema], named. *)
Definition traverse_items (path : list json) (kvs : list (string * json))
    : list (list json) :=
  flat_map
    (fun kv =>
       if Py.is_list_or_dict (snd kv)
       then JsonSchemaHelper.traverse_schema (snd kv) (path ++ [JStr (fst kv)])
       else [])
    kvs.

Definition traverse_elements (path : list json) (xs : list json)
    : list (list json) :=
  flat_map
    (fun item =>
       if Py.is_list_or_dict item
       then JsonSchemaHelper.traverse_schema item (path ++ [item])
       else [])
    xs.

Definition record_variant (path : list json) : list (list json) :=
  if JsonSchemaHelper.is_variant_path path then [path] else [].

(** The schema of the spec's example:
    [{"a": {"anyOf": [{"b": {"oneOf": [...]}}]}}]. *)
Definition inner_variant : json :=
  JDict [("b", JDict [("oneOf", JList [JDict [("type", JStr "string")];
                                       JDict [("type", JStr "integer")]])])].

Definition nested_variant_schema : json :=
  JDict [("a", JDict [("anyOf", JList [inner_variant])])].

(** ** Structure projection *)

(** The object of the spec's example: [{"a": {"b": 1}, "c": [{"d": 2}]}]. *)
Definition sample_object : json :=
  JDict [("a", JDict [("b", JNum 1)]);
         ("c", JList [JDict [("d", JNum 2)]])].

(** Neither a mapping nor a non-empty list. *)
Definition is_leaf (v : json) : bool :=
  match v with
  | JDict _ | JList (_ :: _) => false
  | _ => true
  end.

(** The types a node is tried against: its ["type"], a scalar read as a
    one-element list, and [["null"]] when it has none. *)
Definition effective_type (kvs : list (string * json)) : list json :=
  Py.as_list (match Py.assoc "type" kvs with
           | Some type => type
           | None => JList [JStr "null"]
           end).

Definition items_or_empty (kvs : list (string * json)) : json :=
  match Py.assoc "items" kvs with
  | Some items => items
  | None => JDict []
  end.

Definition free_form_object : list (string * json) :=
  [("type", JStr "object");
   ("additionalProperties", JDict [("type", JStr "string")])].

Definition array_of_strings : list (string * json) :=
  [("type", JList [JStr "null"; JStr "array"]);
   ("items", JDict [("type", JStr "string")])].

Definition array_without_items : list (string * json) :=
  [("type", JStr "array")].

(** What [subschema.get("oneOf") or subschema.get("anyOf")] is on a
    mapping. *)
Definition variant_branches (kvs : list (string * json)) : json :=
  let one_of := match Py.assoc "oneOf" kvs with
                | Some v => v
                | None => JNull
                end in
  if Py.truthy one_of then one_of
  else match Py.assoc "anyOf" kvs with
       | Some v => v
       | None => JNull
       end.

(** One call of [_scan_schema], with [scan] for the calls it makes. *)
Definition scan_step
    (scan : json -> string -> list string -> result (list string))
    (subschema : json) (path : string) (pathes : list string)
    : result (list string) :=
  has_one <- Py.contains_str "oneOf" subschema ;;
  has_variant <- (if has_one : bool then Ok true
                  else Py.contains_str "anyOf" subschema) ;;
  if has_variant : bool then
    one_of <- Py.get subschema "oneOf" JNull ;;
    branches <- (if Py.truthy one_of then Ok one_of
                 else Py.get subschema "anyOf" JNull) ;;
    branches <- Py.iter branches ;;
    Py.for_each
      (fun s pathes => branch <- as_object s ;; scan branch path pathes)
      branches pathes
  else
    schema_type <- Py.get subschema "type" (JList [JStr "null"]) ;;
    let schema_type := Py.as_list schema_type in
    if Py.mem_str "object" schema_type then
      props <- Py.get subschema "properties" JNull ;;
      if negb (Py.truthy props) then Ok (pathes ++ [path])
      else
        match props with
        | JDict kvs =>
            Py.for_each
              (fun kv pathes =>
                 scan (snd kv) (path ++ "/" ++ fst kv)%string pathes)
              kvs pathes
        | _ => Raise AttributeError
        end
    else if Py.mem_str "array" schema_type then
      items <- Py.get subschema "items" (JDict []) ;;
      scan items (path ++ "/[]")%string pathes
    else Ok (pathes ++ [path]).

(** A node whose types list both ["array"] and ["object"]. *)
Definition array_or_object : list (string * json) :=
  [("type", JList [JStr "array"; JStr "object"]);
   ("items", JDict [("type", JStr "string")])].

(** The usual container of a [oneOf]: type ["object"], no ["properties"]
    of its own. *)
Definition one_of_container : list (string * json) :=
  [("type", JStr "object");
   ("oneOf",
    JList [JDict [("properties",
                   JDict [("a", JDict [("type", JStr "string")])])]])].

(** ** Variant validation *)

(** The container of the spec's example and its two branches. *)
Definition mode_variants : json :=
  JList [JDict [("properties", JDict [("mode", JDict [("const", JStr "a")])])];
         JDict [("properties", JDict [("mode", JDict [("const", JStr "b")])])]].

Definition mode_container : json :=
  JDict [("type", JStr "object"); ("oneOf", mode_variants)].






(** [dpath.util.get] on a glob that names mapping keys only: the keys are
    followed one by one. *)
Definition dpath_plain (obj : json) (glob : string) : result json :=
  Py.reduce_getitem (map JStr (Py.split "/" glob)) obj.

Definition mode_schema : json :=
  JDict [("properties", JDict [("cfg", mode_container)])].


Definition cfg_variant_path : list json :=
  [JStr "properties"; JStr "cfg"; JStr "oneOf"].

(** ** Reachable nodes and conforming records *)

(** [reaches s q n]: from [s], the segments [q] lead to [n] through lists
    and mappings only, a key of a mapping or an element of a list at each
    step, as [traverse_schema] extends its path. *)
Inductive reaches : json -> list json -> json -> Prop :=
| reaches_here (s : json) : reaches s [] s
| reaches_key (kvs : list (string * json)) (k : string) (v : json)
    (q : list json) (n : json) :
    In (k, v) kvs -> Py.is_list_or_dict v = true -> reaches v q n ->
    reaches (JDict kvs) (JStr k :: q) n
| reaches_element (xs : list json) (x : json) (q : list json) (n : json) :
    In x xs -> Py.is_list_or_dict x = true -> reaches x q n ->
    reaches (JList xs) (x :: q) n.

Definition is_str (v : json) : bool :=
  match v with
  | JStr _ => true
  | _ => false
  end.

Definition is_dict (v : json) : bool :=
  match v with
  | JDict _ => true
  | _ => false
  end.

(** A mapping with neither ["oneOf"] nor ["anyOf"]. *)
Definition no_variants (kvs : list (string * json)) : bool :=
  match Py.assoc "oneOf" kvs, Py.assoc "anyOf" kvs with
  | None, None => true
  | _, _ => false
  end.

(** [conforms record schema]: the record has the shape the schema
    describes, for schemas made of objects with a non-empty
    ["properties"], arrays and leaves, with no variant and no free-form
    object.  An object has exactly the properties of the schema, in the
    same order; an array has a first element that conforms to ["items"];
    a leaf is any value that is neither a mapping nor a non-empty list. *)
#[warnings="-register-all"]
Inductive conforms : json -> json -> Prop :=
| conforms_leaf (v : json) (kvs : list (string * json)) :
    no_variants kvs = true ->
    Py.mem_str "object" (effective_type kvs) = false ->
    Py.mem_str "array" (effective_type kvs) = false ->
    is_leaf v = true ->
    conforms v (JDict kvs)
| conforms_object (fields : list (string * json))
    (kvs props : list (string * json)) :
    no_variants kvs = true ->
    Py.mem_str "object" (effective_type kvs) = true ->
    Py.assoc "properties" kvs = Some (JDict props) ->
    props <> [] ->
    Forall2
      (fun field prop =>
         fst field = fst prop /\ conforms (snd field) (snd prop))
      fields props ->
    conforms (JDict fields) (JDict kvs)
| conforms_array (first : json) (others : list json)
    (kvs : list (string * json)) :
    no_variants kvs = true ->
    Py.mem_str "object" (effective_type kvs) = false ->
    Py.mem_str "array" (effective_type kvs) = true ->
    conforms first (items_or_empty kvs) ->
    conforms (JList (first :: others)) (JDict kvs).

(** A schema of an object with an integer and an array of strings, and a
    record of that shape. *)
Definition tagged_schema : json :=
  JDict [("type", JStr "object");
         ("properties",
          JDict [("id", JDict [("type", JStr "integer")]);
                 ("tags", JDict array_of_strings)])].

Definition tagged_record : json :=
  JDict [("id", JNum 7); ("tags", JList [JStr "a"; JStr "b"])].

(** ** The discriminated-union convention, as a check on the branches *)

(** The ["properties"] of a branch, when it has a mapping of them. *)
Definition props_of (branch : json) : list (string * json) :=
  match branch with
  | JDict kvs =>
      match Py.assoc "properties" kvs with
      | Some (JDict props) => props
      | _ => []
      end
  | _ => []
  end.

Definition has_properties (branch : json) : bool :=
  match branch with
  | JDict kvs =>
      match Py.assoc "properties" kvs with
      | Some _ => true
      | None => false
      end
  | _ => false
  end.

(** A branch is well formed when it is a mapping whose ["properties"], if
    any, is a mapping of mappings. *)
Definition well_formed_branch (branch : json) : bool :=
  match branch with
  | JDict kvs =>
      match Py.assoc "properties" kvs with
      | Some (JDict props) => forallb (fun kv => is_dict (snd kv)) props
      | Some _ => false
      | None => true
      end
  | _ => false
  end.

Definition has_const (node : json) : bool :=
  match node with
  | JDict kvs =>
      match Py.assoc "const" kvs with
      | Some _ => true
      | None => false
      end
  | _ => false
  end.

(** [prop] is a property of the branch and its schema has ["const"]. *)
Definition tags (prop : string) (branch : json) : bool :=
  match Py.assoc prop (props_of branch) with
  | Some node => has_const node
  | None => false
  end.

(** The three rules on a container and the branches of its variant. *)
Definition variant_check (container : list (string * json))
    (branches : list json) : result unit :=
  match Py.assoc "type" container with
  | Some (JStr "object") =>
      match branches with
      | [] => Raise TypeError
      | first :: _ =>
          if forallb has_properties branches
             && existsb (fun prop => forallb (tags prop) branches)
                  (Py.keys (props_of first))
          then Ok tt
          else Raise AssertionError
      end
  | _ => Raise AssertionError
  end.

(** ** More fields and parsers *)

(** A parser that refuses a string that starts with the zero date and
    returns any other string as it is. *)
Definition strict_parse (s : string) : result string :=
  if prefix "0000-00-00" s then Raise ParserError else Ok s.

(** A nullable date-time property, as connectors declare it. *)
Definition nullable_property_schema : json :=
  JDict [("properties",
          JDict [("updated_at",
                  JDict [("type", JList [JStr "null"; JStr "string"]);
                         ("format", JStr "date-time")])])].

(** A schema whose variant container refers to a definition by a
    pointer that is not under ["definitions"], and declares a type of its
    own. *)
Definition ref_container_schema : json :=
  JDict [("definitions", JDict [("Mode", JDict [("type", JStr "object")])]);
         ("properties",
          JDict [("cfg",
                  JDict [("$ref", JStr "#/elsewhere/Mode");
                         ("type", JStr "string");
                         ("oneOf", mode_variants)])])].

(** * Properties *)

(** ** Strings *)

Lemma prefix_empty (s : string) : prefix EmptyString s = true.
Proof. destruct s; reflexivity. Qed.

Lemma prefix_false_replace_step (old new : string) (c : ascii) (rest : string) :
  prefix old (String c rest) = false ->
  Py.replace_from old new 0 (String c rest)
  = String c (Py.replace_from old new 0 rest).
Proof.
  intros H. cbn [Py.replace_from]. rewrite H. reflexivity.
Qed.

Lemma prefix_inv (p s : string) :
  prefix p s = true -> exists rest, s = (p ++ rest)%string.
Proof.
  revert s. induction p as [|a p IH]; intros s H.
  - exists s. reflexivity.
  - destruct s as [|b s]; [discriminate H|]. cbn [prefix] in H.
    destruct (ascii_dec a b) as [<-|]; [|discriminate H].
    destruct (IH s H) as (rest & ->). exists rest. reflexivity.
Qed.

(** An occurrence of the zero date brings two dashes. *)
Lemma contains_zero_date_dashes (s : string) :
  Py.contains "0000-00-00" s = true -> 2 <= dashes s.
Proof.
  induction s as [|c rest IH]; intros H.
  - discriminate H.
  - cbn [Py.contains] in H. apply orb_true_iff in H as [Hp|Hr].
    + destruct (prefix_inv _ _ Hp) as (r & ->). cbn. lia.
    + specialize (IH Hr). cbn [dashes]. lia.
Qed.

Lemma few_dashes_no_zero_date (s : string) :
  dashes s < 2 -> Py.contains "0000-00-00" s = false.
Proof.
  intros H. destruct (Py.contains "0000-00-00" s) eqn:E; [|reflexivity].
  apply contains_zero_date_dashes in E. lia.
Qed.

(** A string with no occurrence of [old] is left alone by [replace]. *)
Lemma replace_absent (old new s : string) :
  Py.contains old s = false -> Py.replace old new s = s.
Proof.
  unfold Py.replace.
  induction s as [|c rest IH]; intros H.
  - reflexivity.
  - cbn [Py.contains] in H. apply orb_false_iff in H as [Hp Hr].
    rewrite prefix_false_replace_step by exact Hp.
    rewrite IH by exact Hr. reflexivity.
Qed.

Example split_pointer :
  Py.split "/" "#/definitions/user" = ["#"; "definitions"; "user"].
Proof. reflexivity. Qed.

Example split_no_separator : Py.split "/" "user" = ["user"].
Proof. reflexivity. Qed.

Example split_empty_parts : Py.split "/" "a//b/" = ["a"; EmptyString; "b"; EmptyString].
Proof. reflexivity. Qed.

Example replace_every_occurrence :
  Py.replace "0000-00-00" "0001-01-01" "0000-00-00 to 0000-00-00"
  = "0001-01-01 to 0001-01-01".
Proof. reflexivity. Qed.

Example join_path :
  Py.join "/" [JStr "properties"; JStr "cfg"; JStr "oneOf"]
  = Ok "properties/cfg/oneOf".
Proof. reflexivity. Qed.

Example join_not_str : Py.join "/" [JStr "a"; JNum 0] = Raise TypeError.
Proof. reflexivity. Qed.

(** ** Dictionaries *)

Lemma mem_keys_assoc (k : string) (kvs : list (string * json)) :
  Py.mem k (Py.keys kvs)
  = match Py.assoc k kvs with Some _ => true | None => false end.
Proof.
  induction kvs as [|[k' v] kvs IH]; [reflexivity|].
  unfold Py.mem, Py.keys in *. cbn [map fst existsb Py.assoc].
  destruct (String.eqb k k'); [reflexivity|]. exact IH.
Qed.

Lemma contains_str_dict (k : string) (kvs : list (string * json)) :
  Py.contains_str k (JDict kvs)
  = Ok (match Py.assoc k kvs with Some _ => true | None => false end).
Proof.
  cbn [Py.contains_str]. rewrite mem_keys_assoc. reflexivity.
Qed.

(** ** The error monad *)

Lemma bind_Ok {A B : Type} (m : result A) (k : A -> result B) (b : B) :
  bind m k = Ok b -> exists a, m = Ok a /\ k a = Ok b.
Proof.
  destruct m as [a|e]; cbn [bind]; intros H; [|discriminate].
  exists a. split; [reflexivity|exact H].
Qed.


(** ** [CatalogField] *)

Section CatalogFieldFacts.

Variable DateTime : Type.
Variable pendulum_parse : string -> result DateTime.

Local Abbreviation _parse_value :=
  (CatalogField._parse_value DateTime pendulum_parse).
Local Abbreviation parse := (CatalogField.parse DateTime pendulum_parse).


(** C7.  With a temporal format and no ["null"] among the formats, a
    record whose value at the path is [None] makes [parse] raise
    [ValueError] (the spec's InvalidFieldValueError). *)
Theorem parse_null_not_nullable_raises_ValueError :
  forall (self : CatalogField.t) (record : json) (path : option (list json)),
    CatalogField.is_temporal (CatalogField.formats self) = true ->
    Py.mem_str "null" (CatalogField.formats self) = false ->
    Py.reduce_getitem
      (CatalogField.path_or path (CatalogField.path self)) record = Ok JNull ->
    parse self record path = Raise ValueError.
Proof.
  intros self record path Htemp Hnull Hnav.
  unfold CatalogField.parse. rewrite Hnav. cbn [bind].
  unfold CatalogField._parse_value. rewrite Htemp, Hnull. reflexivity.
Qed.

(** C1.  With a temporal format and ["null"] among the formats, the
    [ValueError] guard lets [None] through to [value.startswith], which
    [None] does not have: [parse] raises [AttributeError] instead of
    returning [None]. *)
Theorem parse_null_nullable_raises_AttributeError :
  forall (self : CatalogField.t) (record : json) (path : option (list json)),
    CatalogField.is_temporal (CatalogField.formats self) = true ->
    Py.mem_str "null" (CatalogField.formats self) = true ->
    Py.reduce_getitem
      (CatalogField.path_or path (CatalogField.path self)) record = Ok JNull ->
    parse self record path = Raise AttributeError.
Proof.
  intros self record path Htemp Hnull Hnav.
  unfold CatalogField.parse. rewrite Hnav. cbn [bind].
  unfold CatalogField._parse_value. rewrite Htemp, Hnull. reflexivity.
Qed.

(** What [_parse_value] hands to [pendulum.parse] for a string that starts
    with the zero date: the string with every occurrence replaced. *)
Lemma _parse_value_zero_date (self : CatalogField.t) (rest : string) :
  CatalogField.is_temporal (CatalogField.formats self) = true ->
  _parse_value self (JStr ("0000-00-00" ++ rest))
  = (d <- pendulum_parse
            ("0001-01-01" ++ Py.replace "0000-00-00" "0001-01-01" rest) ;;
     Ok (Native d)).
Proof.
  intros Htemp. unfold CatalogField._parse_value, Py.replace.
  rewrite Htemp. cbn. rewrite !prefix_empty. reflexivity.
Qed.

(** A string that starts with the replacement date is parsed as it is. *)
Lemma _parse_value_first_date (self : CatalogField.t) (rest : string) :
  CatalogField.is_temporal (CatalogField.formats self) = true ->
  _parse_value self (JStr ("0001-01-01" ++ rest))
  = (d <- pendulum_parse ("0001-01-01" ++ rest) ;; Ok (Native d)).
Proof.
  intros Htemp. unfold CatalogField._parse_value.
  rewrite Htemp. cbn. reflexivity.
Qed.

(** C6.  For a temporal field (format ["date-time"] is one),
    ["0000-00-00T00:00:00"] parses to what ["0001-01-01T00:00:00"] parses
    to.  A string that starts with ["0000-00-00"] has that prefix
    rewritten to ["0001-01-01"] before [pendulum.parse] sees it, and what
    follows the prefix is handed on unchanged whenever it holds no
    ["0000-00-00"] of its own, which is the case of every trailing
    time-of-day component (fewer than two dashes).  The rewrite is
    [str.replace]: in general the parser receives the new prefix followed
    by the rest with its own occurrences replaced. *)
Theorem parse_value_zero_date_rewritten :
  forall (self : CatalogField.t) (rest : string),
    CatalogField.is_temporal (CatalogField.formats self) = true ->
    _parse_value self (JStr "0000-00-00T00:00:00")
    = _parse_value self (JStr "0001-01-01T00:00:00")
    /\ (dashes rest < 2 ->
        _parse_value self (JStr ("0000-00-00" ++ rest))
        = (d <- pendulum_parse ("0001-01-01" ++ rest) ;; Ok (Native d))
        /\ _parse_value self (JStr ("0000-00-00" ++ rest))
           = _parse_value self (JStr ("0001-01-01" ++ rest)))
    /\ (Py.contains "0000-00-00" rest = false ->
        _parse_value self (JStr ("0000-00-00" ++ rest))
        = (d <- pendulum_parse ("0001-01-01" ++ rest) ;; Ok (Native d))
        /\ _parse_value self (JStr ("0000-00-00" ++ rest))
           = _parse_value self (JStr ("0001-01-01" ++ rest)))
    /\ _parse_value self (JStr ("0000-00-00" ++ rest))
       = (d <- pendulum_parse
                 ("0001-01-01" ++ Py.replace "0000-00-00" "0001-01-01" rest) ;;
          Ok (Native d)).
Proof.
  intros self rest Htemp.
  assert (Hrest : Py.contains "0000-00-00" rest = false ->
                  _parse_value self (JStr ("0000-00-00" ++ rest))
                  = (d <- pendulum_parse ("0001-01-01" ++ rest) ;;
                     Ok (Native d))
                  /\ _parse_value self (JStr ("0000-00-00" ++ rest))
                     = _parse_value self (JStr ("0001-01-01" ++ rest))).
  { intros Habs.
    rewrite _parse_value_zero_date, _parse_value_first_date by exact Htemp.
    rewrite replace_absent by exact Habs. split; reflexivity. }
  refine (conj _ (conj _ (conj Hrest _))).
  - change "0000-00-00T00:00:00" with ("0000-00-00" ++ "T00:00:00")%string.
    change "0001-01-01T00:00:00" with ("0001-01-01" ++ "T00:00:00")%string.
    rewrite _parse_value_zero_date, _parse_value_first_date by exact Htemp.
    reflexivity.
  - intros Hfew. apply Hrest, few_dashes_no_zero_date, Hfew.
  - apply _parse_value_zero_date, Htemp.
Qed.

End CatalogFieldFacts.

(** *** Concrete fields and records *)

Example init_date_time_field :
  CatalogField.init date_time_schema [JStr "updated_at"] = Ok date_time_field.
Proof. reflexivity. Qed.

Example init_nullable_date_time_field :
  CatalogField.init nullable_date_time_schema [JStr "updated_at"]
  = Ok nullable_date_time_field.
Proof. reflexivity. Qed.

(** C7 on the field [{"type": "string", "format": "date-time"}] at
    ["updated_at"] and the record [{"updated_at": None}]. *)
Lemma parse_null_not_nullable_witness :
  CatalogField.parse string echo_parse date_time_field null_record None
  = Raise ValueError.
Proof.
  exact (parse_null_not_nullable_raises_ValueError string echo_parse
           date_time_field null_record None eq_refl eq_refl eq_refl).
Defined.

(** C1 on the same record and a field whose formats are
    [{"date-time", "null"}]. *)
Lemma parse_null_nullable_witness :
  CatalogField.parse string echo_parse nullable_date_time_field null_record
    None
  = Raise AttributeError.
Proof.
  exact (parse_null_nullable_raises_AttributeError string echo_parse
           nullable_date_time_field null_record None eq_refl eq_refl eq_refl).
Defined.

(** C6 on the field of format ["date-time"] and the time of day
    ["T00:00:00"]: the parser receives ["0001-01-01T00:00:00"]. *)
Lemma parse_value_zero_date_witness :
  dashes "T00:00:00" < 2
  /\ CatalogField._parse_value string echo_parse date_time_field
       (JStr "0000-00-00T00:00:00")
     = CatalogField._parse_value string echo_parse date_time_field
         (JStr "0001-01-01T00:00:00")
  /\ CatalogField._parse_value string echo_parse date_time_field
       (JStr ("0000-00-00" ++ "T00:00:00"))
     = Ok (Native "0001-01-01T00:00:00").
Proof.
  assert (Hfew : dashes "T00:00:00" < 2) by (cbn; lia).
  pose proof (parse_value_zero_date_rewritten string echo_parse
                date_time_field "T00:00:00" eq_refl) as [H1 [H2 _]].
  refine (conj Hfew (conj H1 _)).
  exact (proj1 (H2 Hfew)).
Defined.

(** A time of day with a negative zone offset has one dash. *)
Example parse_value_zone_offset :
  dashes "T12:30:00-05:00" = 1
  /\ CatalogField._parse_value string echo_parse date_time_field
       (JStr "0000-00-00T12:30:00-05:00")
     = Ok (Native "0001-01-01T12:30:00-05:00").
Proof. split; reflexivity. Qed.

(** A later zero date is no time of day, and [str.replace] rewrites it
    too: the interval ["0000-00-00T00:00:00/0000-00-00T12:00:00"] reaches
    the parser as ["0001-01-01T00:00:00/0001-01-01T12:00:00"]. *)
Lemma parse_value_rewrites_later_zero_dates :
  CatalogField._parse_value string echo_parse date_time_field
    (JStr ("0000-00-00" ++ "T00:00:00/0000-00-00T12:00:00"))
  <> CatalogField._parse_value string echo_parse date_time_field
       (JStr ("0001-01-01" ++ "T00:00:00/0000-00-00T12:00:00")).
Proof.
  vm_compute. discriminate.
Qed.

Example parse_value_interval :
  CatalogField._parse_value string echo_parse date_time_field
    (JStr "0000-00-00T00:00:00/0000-00-00T12:00:00")
  = Ok (Native "0001-01-01T00:00:00/0001-01-01T12:00:00").
Proof. reflexivity. Qed.

(** An empty path does not select the whole record. *)
Example parse_empty_path_example :
  CatalogField.parse string echo_parse
    (CatalogField.mk (JDict [("type", JStr "integer")]) [JStr "id"]
       [JStr "integer"])
    (JDict [("id", JNum 7)]) (Some [])
  = Ok (Raw (JNum 7)).
Proof. reflexivity. Qed.

(** ** [_detect_formats] *)

(** C2, where it fails.  A schema with no ["type"] key has the empty
    format set, whatever its ["format"] key holds: the default argument
    [self.schema["type"]] is evaluated first and its [KeyError] is caught. *)
Theorem detect_formats_without_type_is_empty :
  forall kvs : list (string * json),
    Py.assoc "type" kvs = None ->
    CatalogField._detect_formats (JDict kvs) = Ok [].
Proof.
  intros kvs H. unfold CatalogField._detect_formats.
  cbn [Py.getitem]. rewrite H. reflexivity.
Qed.

(** C2 on [{"format": "date-time"}]: no format is detected. *)
Lemma detect_formats_format_only_witness :
  CatalogField._detect_formats (JDict [("format", JStr "date-time")]) = Ok [].
Proof.
  exact (detect_formats_without_type_is_empty
           [("format", JStr "date-time")] eq_refl).
Defined.

(** C2, where it holds.  With a ["type"] key the format set is the set of
    the ["format"] value if there is one, else of the ["type"] value. *)
Lemma detect_formats_with_type (kvs : list (string * json)) (type : json) :
  Py.assoc "type" kvs = Some type ->
  CatalogField._detect_formats (JDict kvs)
  = Py.set (Py.as_list (match Py.assoc "format" kvs with
                     | Some format => format
                     | None => type
                     end)).
Proof.
  intros H. unfold CatalogField._detect_formats.
  cbn [Py.getitem Py.get]. rewrite H. cbn [bind try_except].
  destruct (Py.assoc "format" kvs) as [f|]; [destruct f | destruct type];
    reflexivity.
Qed.

Example detect_formats_scalar_type :
  CatalogField._detect_formats (JDict [("type", JStr "string")])
  = Ok [JStr "string"].
Proof. reflexivity. Qed.

Example detect_formats_list_type :
  CatalogField._detect_formats
    (JDict [("type", JList [JStr "null"; JStr "string"])])
  = Ok [JStr "null"; JStr "string"].
Proof. reflexivity. Qed.

Example detect_formats_both_absent :
  CatalogField._detect_formats (JDict []) = Ok [].
Proof. reflexivity. Qed.

(** ** [get_property] and [$ref] *)

(** One step of [get_property] from a node whose reference was resolved
    or that has none. *)
Lemma get_property_from_ref_free (_schema : json) (path : list json) :
  forall node : json,
    (path <> [] -> ref_free node = true) ->
    ref_free_inside node path = true ->
    JsonSchemaHelper.get_property_from _schema node path
    = descend_properties node path.
Proof.
  induction path as [|segment r IH]; intros node Hnode Hin.
  - reflexivity.
  - assert (Hfree : ref_free node = true) by (apply Hnode; discriminate).
    unfold ref_free in Hfree.
    cbn [JsonSchemaHelper.get_property_from descend_properties].
    destruct (Py.contains_str "$ref" node) as [[|]|e] eqn:Hc;
      [discriminate Hfree| |].
    + cbn [bind]. cbn [ref_free_inside] in Hin.
      destruct (Py.getitem node (JStr "properties")) as [properties|e];
        [|reflexivity].
      cbn [bind] in *.
      destruct (Py.getitem properties segment) as [child|e]; [|reflexivity].
      cbn [bind]. apply IH.
      * intros Hr. destruct r; [contradiction|].
        apply andb_true_iff in Hin. apply Hin.
      * destruct r; [reflexivity|].
        apply andb_true_iff in Hin. apply Hin.
    + destruct node; cbn [Py.contains_str] in Hc; try discriminate Hc;
        injection Hc as <-; reflexivity.
Qed.

(** C3, amended.  When the root is a mapping whose ["$ref"] resolves to
    [target], [get_property] on a path with at least one segment, no
    inner node of which carries a ["$ref"] of its own, returns what the
    descent by hand from [target] returns (the same node, or the same
    error).  On the empty path [get_property] returns the schema itself,
    whatever it holds.  And from any node that carries a ["$ref"], the
    next segment is read from the ["properties"] of the node the
    reference resolves to, one hop, not from the node's own. *)
Theorem get_property_through_root_ref :
  forall (kvs : list (string * json)) (ref target segment : json)
         (r : list json),
    Py.assoc "$ref" kvs = Some ref ->
    JsonSchemaHelper.get_ref (JDict kvs) ref = Ok target ->
    (ref_free_inside target (segment :: r) = true ->
     JsonSchemaHelper.get_property (JDict kvs) (segment :: r)
     = descend_properties target (segment :: r))
    /\ (forall _schema : json,
          JsonSchemaHelper.get_property _schema [] = Ok _schema)
    /\ (forall _schema node : json,
          Py.contains_str "$ref" node = Ok true ->
          JsonSchemaHelper.get_property_from _schema node (segment :: r)
          = (pointer <- Py.getitem node (JStr "$ref") ;;
             resolved <- JsonSchemaHelper.get_ref _schema pointer ;;
             properties <- Py.getitem resolved (JStr "properties") ;;
             child <- Py.getitem properties segment ;;
             JsonSchemaHelper.get_property_from _schema child r)).
Proof.
  intros kvs ref target segment r Href Htarget.
  refine (conj _ (conj _ _)).
  - intros Hin. unfold JsonSchemaHelper.get_property.
    cbn [JsonSchemaHelper.get_property_from descend_properties].
    rewrite contains_str_dict, Href. cbn [bind Py.getitem].
    rewrite Href. cbn [bind]. rewrite Htarget. cbn [bind].
    cbn [ref_free_inside] in Hin.
    destruct (Py.getitem target (JStr "properties")) as [properties|e];
      [|reflexivity].
    cbn [bind] in *.
    destruct (Py.getitem properties segment) as [child|e]; [|reflexivity].
    cbn [bind]. apply get_property_from_ref_free.
    + intros Hr. destruct r; [contradiction|].
      apply andb_true_iff in Hin. apply Hin.
    + destruct r; [reflexivity|].
      apply andb_true_iff in Hin. apply Hin.
  - reflexivity.
  - intros _schema node Hcarries.
    cbn [JsonSchemaHelper.get_property_from]. rewrite Hcarries.
    cbn [bind].
    destruct (Py.getitem node (JStr "$ref")) as [pointer|e]; [|reflexivity].
    cbn [bind].
    destruct (JsonSchemaHelper.get_ref _schema pointer); reflexivity.
Qed.

(** C3 on a root that refers to [#/definitions/user] and the path
    ["address", "city"]. *)
Lemma get_property_through_root_ref_witness :
  JsonSchemaHelper.get_property root_ref_schema [JStr "address"; JStr "city"]
  = Ok (JDict [("type", JStr "string")]).
Proof.
  exact (proj1 (get_property_through_root_ref
                  [("$ref", JStr "#/definitions/user");
                   ("definitions", JDict [("user", user_node)])]
                  (JStr "#/definitions/user") user_node
                  (JStr "address") [JStr "city"] eq_refl eq_refl)
           eq_refl).
Defined.

(** C3, as stated, fails in two ways.  On the empty path [get_property]
    never enters its loop and returns the root, reference and all, while
    resolving the reference first gives the node it points to.  And an
    inner node that has a ["$ref"] beside its ["properties"] is resolved
    before the next segment is read, so the path ["home", "city"], valid in
    the referenced node, leads elsewhere. *)
Lemma get_property_differs_from_descent :
  JsonSchemaHelper.get_property root_ref_schema []
  <> (target <- JsonSchemaHelper.get_ref root_ref_schema
                  (JStr "#/definitions/user") ;;
      descend_properties target [])
  /\ JsonSchemaHelper.get_property inner_ref_schema
       [JStr "home"; JStr "city"]
     <> (target <- JsonSchemaHelper.get_ref inner_ref_schema
                     (JStr "#/definitions/user") ;;
         descend_properties target [JStr "home"; JStr "city"]).
Proof.
  split; vm_compute; discriminate.
Qed.

(** A path through an inner node that is [None]: the test
    ["$ref" in None] raises [TypeError], and so does [None["properties"]]
    in the descent by hand. *)
Example get_property_through_none :
  ref_free_inside (JDict [("properties", JDict [("a", JNull)])])
    [JStr "a"; JStr "b"] = true
  /\ JsonSchemaHelper.get_property
       (JDict [("$ref", JStr "#/definitions/t");
               ("definitions",
                JDict [("t", JDict [("properties", JDict [("a", JNull)])])])])
       [JStr "a"; JStr "b"]
     = Raise TypeError
  /\ descend_properties (JDict [("properties", JDict [("a", JNull)])])
       [JStr "a"; JStr "b"]
     = Raise TypeError.
Proof. repeat split. Qed.

Example get_property_empty_path :
  JsonSchemaHelper.get_property root_ref_schema [] = Ok root_ref_schema
  /\ JsonSchemaHelper.get_ref root_ref_schema (JStr "#/definitions/user")
     = Ok user_node.
Proof. split; reflexivity. Qed.

(** An inner node with a ["$ref"] of its own is resolved too, one hop per
    segment, so its own ["properties"] are not the ones descended. *)
Example get_property_inner_ref :
  JsonSchemaHelper.get_property inner_ref_schema [JStr "home"; JStr "city"]
  = Ok (JStr "there")
  /\ (target <- JsonSchemaHelper.get_ref inner_ref_schema
                  (JStr "#/definitions/user") ;;
      descend_properties target [JStr "home"; JStr "city"])
     = Ok (JStr "here").
Proof. split; reflexivity. Qed.

(** ** [find_variant_paths] *)

(** A mapping: the path is recorded first if it ends in ["oneOf"] or
    ["anyOf"], then every value that is a list or a mapping is traversed
    under its key, in key order; a match does not stop the descent. *)
Lemma traverse_schema_dict (kvs : list (string * json)) (path : list json) :
  JsonSchemaHelper.traverse_schema (JDict kvs) path
  = record_variant path ++ traverse_items path kvs.
Proof.
  cbn [JsonSchemaHelper.traverse_schema]. unfold record_variant. f_equal.
  induction kvs as [|[item next_obj] r IH]; [reflexivity|].
  cbn [traverse_items flat_map fst snd]. f_equal. exact IH.
Qed.

(** A list: every element that is a list or a mapping is traversed with
    the element itself as the new segment. *)
Lemma traverse_schema_list (xs : list json) (path : list json) :
  JsonSchemaHelper.traverse_schema (JList xs) path
  = record_variant path ++ traverse_elements path xs.
Proof.
  reflexivity.
Qed.

(** Every path [traverse_schema] records ends in ["oneOf"] or ["anyOf"]. *)
Lemma traverse_schema_records_variants (_schema : json) :
  forall path : list json,
    Forall (fun p => JsonSchemaHelper.is_variant_path p = true)
      (JsonSchemaHelper.traverse_schema _schema path).
Proof.
  assert (Hrec : forall path,
             Forall (fun p => JsonSchemaHelper.is_variant_path p = true)
               (record_variant path)).
  { intros path. unfold record_variant.
    destruct (JsonSchemaHelper.is_variant_path path) eqn:E; auto. }
  induction _schema as [| | | |xs IH|kvs IH] using json_ind; intros path;
    try (cbn [JsonSchemaHelper.traverse_schema]; rewrite app_nil_r;
         apply Hrec).
  - rewrite traverse_schema_list. apply Forall_app. split; [apply Hrec|].
    unfold traverse_elements.
    induction IH as [|item r Hitem _ IHr]; cbn [flat_map]; [constructor|].
    apply Forall_app. split; [|exact IHr].
    destruct (Py.is_list_or_dict item); [apply Hitem|constructor].
  - rewrite traverse_schema_dict. apply Forall_app. split; [apply Hrec|].
    unfold traverse_items.
    induction IH as [|kv r Hkv _ IHr]; cbn [flat_map]; [constructor|].
    apply Forall_app. split; [|exact IHr].
    destruct (Py.is_list_or_dict (snd kv)); [apply Hkv|constructor].
Qed.

(** C4.  On the nested schema [find_variant_paths] returns the outer path
    before the inner one, and the inner path holds the list element itself
    where the claim expects the index ["0"]. *)
Theorem find_variant_paths_nested :
  JsonSchemaHelper.find_variant_paths nested_variant_schema
  = Ok [[JStr "a"; JStr "anyOf"];
        [JStr "a"; JStr "anyOf"; inner_variant; JStr "b"; JStr "oneOf"]]
  /\ JsonSchemaHelper.find_variant_paths nested_variant_schema
     <> Ok [[JStr "a"; JStr "anyOf"];
            [JStr "a"; JStr "anyOf"; JStr "0"; JStr "b"; JStr "oneOf"]].
Proof.
  split.
  - reflexivity.
  - vm_compute. intros H. discriminate H.
Qed.

(** No path [find_variant_paths] returns with a list element in it can be
    joined with ["/"], which is the first thing [validate_variant_paths]
    does with a path. *)
Lemma validate_nested_variant_path_raises
    (dpath_get : json -> string -> result json) :
  JsonSchemaHelper.validate_variant_paths dpath_get nested_variant_schema
    [[JStr "a"; JStr "anyOf"; inner_variant; JStr "b"; JStr "oneOf"]]
  = Raise TypeError.
Proof. reflexivity. Qed.

(** ** [get_object_structure] *)

(** C8.  [get_object_structure] on [{"a": {"b": 1}, "c": [{"d": 2}]}]
    returns ["/a/b"] and ["/c/[]/d"] and nothing else.  In general
    [get_object_structure] is its traversal started at the empty path: of
    a mapping it returns the paths of each value under ["/" + key], in key
    order; of a non-empty list the paths of its first element alone under
    ["/[]"]; of any other value the empty path alone.  Below the top, at
    an accumulated path, a mapping contributes the paths of each of its
    values under the path extended by ["/" + key]; a non-empty list those
    of its first element alone under the path extended by ["/[]"]; every
    other value its own path. *)
Theorem get_object_structure_paths :
  get_object_structure sample_object = ["/a/b"; "/c/[]/d"]
  /\ (forall obj : json,
        get_object_structure obj = _traverse_obj_and_get_path obj EmptyString)
  /\ (forall kvs : list (string * json),
        get_object_structure (JDict kvs)
        = flat_map
            (fun kv =>
               _traverse_obj_and_get_path (snd kv) ("/" ++ fst kv)%string)
            kvs)
  /\ (forall (first : json) (others : list json),
        get_object_structure (JList (first :: others))
        = _traverse_obj_and_get_path first "/[]")
  /\ (forall v : json,
        is_leaf v = true -> get_object_structure v = [EmptyString])
  /\ (forall (kvs : list (string * json)) (path : string),
        _traverse_obj_and_get_path (JDict kvs) path
        = flat_map
            (fun kv =>
               _traverse_obj_and_get_path (snd kv)
                 (path ++ "/" ++ fst kv)%string)
            kvs)
  /\ (forall (first : json) (others : list json) (path : string),
        _traverse_obj_and_get_path (JList (first :: others)) path
        = _traverse_obj_and_get_path first (path ++ "/[]")%string)
  /\ (forall (v : json) (path : string),
        is_leaf v = true -> _traverse_obj_and_get_path v path = [path]).
Proof.
  assert (Hdict : forall (kvs : list (string * json)) (path : string),
             _traverse_obj_and_get_path (JDict kvs) path
             = flat_map
                 (fun kv =>
                    _traverse_obj_and_get_path (snd kv)
                      (path ++ "/" ++ fst kv)%string)
                 kvs).
  { intros kvs path. cbn [_traverse_obj_and_get_path].
    induction kvs as [|[k v] r IH]; [reflexivity|].
    cbn [flat_map fst snd]. f_equal. exact IH. }
  assert (Hleaf : forall (v : json) (path : string),
             is_leaf v = true -> _traverse_obj_and_get_path v path = [path]).
  { intros [| | | |[|x xs]|kvs] path Hleaf;
      try discriminate Hleaf; reflexivity. }
  refine (conj _ (conj _ (conj _ (conj _ (conj _ (conj Hdict (conj _ Hleaf))))))).
  - reflexivity.
  - reflexivity.
  - intros kvs. unfold get_object_structure. apply Hdict.
  - reflexivity.
  - intros v Hv. unfold get_object_structure. apply Hleaf, Hv.
  - reflexivity.
Qed.

(** ** [get_expected_schema_structure] *)

(** The type dispatch of [_scan_schema] on a mapping with neither
    ["oneOf"] nor ["anyOf"]. *)
Lemma _scan_schema_by_type (fuel : nat) (kvs : list (string * json))
    (path : string) (pathes : list string) :
  Py.assoc "oneOf" kvs = None ->
  Py.assoc "anyOf" kvs = None ->
  _scan_schema (S fuel) (JDict kvs) path pathes
  = if Py.mem_str "object" (effective_type kvs) then
      props <- Py.get (JDict kvs) "properties" JNull ;;
      if negb (Py.truthy props) then Ok (pathes ++ [path])
      else
        match props with
        | JDict kvs =>
            Py.for_each
              (fun kv pathes =>
                 _scan_schema fuel (snd kv) (path ++ "/" ++ fst kv)%string
                   pathes)
              kvs pathes
        | _ => Raise AttributeError
        end
    else if Py.mem_str "array" (effective_type kvs) then
      _scan_schema fuel (items_or_empty kvs) (path ++ "/[]")%string pathes
    else Ok (pathes ++ [path]).
Proof.
  intros Hone Hany. cbn [_scan_schema].
  rewrite !contains_str_dict, Hone, Hany. cbn [bind Py.get].
  unfold effective_type, items_or_empty.
  destruct (Py.assoc "type" kvs) as [[]|]; reflexivity.
Qed.

(** The variant rule of [_scan_schema] on a mapping that has ["oneOf"] or
    ["anyOf"]: every branch is scanned as an object at the same path. *)
Lemma _scan_schema_variants (fuel : nat) (kvs : list (string * json))
    (path : string) (pathes : list string) :
  Py.assoc "oneOf" kvs <> None \/ Py.assoc "anyOf" kvs <> None ->
  _scan_schema (S fuel) (JDict kvs) path pathes
  = (branches <- Py.iter (variant_branches kvs) ;;
     Py.for_each
       (fun s pathes =>
          branch <- as_object s ;; _scan_schema fuel branch path pathes)
       branches pathes).
Proof.
  intros Hkey. cbn [_scan_schema].
  rewrite !contains_str_dict. unfold variant_branches. cbn [bind Py.get].
  destruct (Py.assoc "oneOf" kvs) as [one|]; cbn [bind].
  - destruct (Py.truthy one); reflexivity.
  - destruct (Py.assoc "anyOf" kvs) as [any|]; cbn [bind Py.truthy].
    + reflexivity.
    + destruct Hkey as [H|H]; contradiction H; reflexivity.
Qed.

(** C9, amended.  On a mapping with neither ["oneOf"] nor ["anyOf"]:
    if ["object"] is among its types and it has no ["properties"] key,
    [_scan_schema] records the current path as one more leaf and goes no
    deeper; if ["array"] is among its types and ["object"] is not, it
    scans ["items"], or the empty schema when there is none, under the
    path extended by ["/[]"]. *)
Theorem scan_schema_object_and_array :
  forall (fuel : nat) (kvs : list (string * json)) (path : string)
         (pathes : list string),
    Py.assoc "oneOf" kvs = None ->
    Py.assoc "anyOf" kvs = None ->
    (Py.mem_str "object" (effective_type kvs) = true ->
     Py.assoc "properties" kvs = None ->
     _scan_schema (S fuel) (JDict kvs) path pathes = Ok (pathes ++ [path]))
    /\ (Py.mem_str "object" (effective_type kvs) = false ->
        Py.mem_str "array" (effective_type kvs) = true ->
        _scan_schema (S fuel) (JDict kvs) path pathes
        = _scan_schema fuel (items_or_empty kvs) (path ++ "/[]")%string
            pathes).
Proof.
  intros fuel kvs path pathes Hone Hany.
  rewrite _scan_schema_by_type by assumption. split.
  - intros Hobj Hprops. rewrite Hobj. cbn [Py.get]. rewrite Hprops.
    reflexivity.
  - intros Hobj Harr. rewrite Hobj, Harr. reflexivity.
Qed.

(** C9 on a free-form object, an array of strings and an array with no
    ["items"]. *)
Lemma scan_schema_object_and_array_witness :
  _scan_schema 1 (JDict free_form_object) "/meta" ["/id"]
  = Ok ["/id"; "/meta"]
  /\ _scan_schema 2 (JDict array_of_strings) "/tags" ["/id"]
     = Ok ["/id"; "/tags/[]"]
  /\ _scan_schema 2 (JDict array_without_items) "/tags" ["/id"]
     = Ok ["/id"; "/tags/[]"].
Proof.
  refine (conj _ (conj _ _)).
  - exact (proj1 (scan_schema_object_and_array 0 free_form_object "/meta"
                    ["/id"] eq_refl eq_refl) eq_refl eq_refl).
  - exact (proj2 (scan_schema_object_and_array 1 array_of_strings "/tags"
                    ["/id"] eq_refl eq_refl) eq_refl eq_refl).
  - exact (proj2 (scan_schema_object_and_array 1 array_without_items "/tags"
                    ["/id"] eq_refl eq_refl) eq_refl eq_refl).
Defined.

(** C9, as stated, fails on an object node that has a ["oneOf"]: the
    variant rule comes first, so the node's own path is not recorded and
    the branches are scanned.  It also fails on a node whose types list
    both ["array"] and ["object"]: the object rule comes first, so the
    ["items"] are not scanned. *)
Lemma scan_schema_rules_in_order :
  (Py.mem_str "object" (effective_type one_of_container) = true
   /\ Py.assoc "properties" one_of_container = None
   /\ _scan_schema 3 (JDict one_of_container) "/cfg" [] = Ok ["/cfg/a"]
   /\ _scan_schema 3 (JDict one_of_container) "/cfg" [] <> Ok ["/cfg"])
  /\ (Py.mem_str "array" (effective_type array_or_object) = true
      /\ _scan_schema 3 (JDict array_or_object) "/x" [] = Ok ["/x"]
      /\ _scan_schema 3 (JDict array_or_object) "/x" []
         <> _scan_schema 2 (items_or_empty array_or_object) "/x/[]" []).
Proof.
  refine (conj (conj _ (conj _ (conj _ _))) (conj _ (conj _ _)));
    try reflexivity; vm_compute; discriminate.
Qed.

Example get_expected_schema_structure_one_of :
  get_expected_schema_structure Ok
    (JDict [("type", JStr "object");
            ("properties", JDict [("cfg", JDict one_of_container);
                                  ("tags", JDict array_of_strings);
                                  ("meta", JDict free_form_object)])])
  = Ok ["/cfg/a"; "/tags/[]"; "/meta"].
Proof. reflexivity. Qed.

(** ** [validate_variant_paths] *)

Tactic Notation "bind_inv" hyp(H) "as" ident(a) ident(Ha) :=
  apply bind_Ok in H as (a & Ha & H).






Section ValidateFacts.

Variable dpath_get : json -> string -> result json.

Local Abbreviation validate_variant_path :=
  (JsonSchemaHelper.validate_variant_path dpath_get).
Local Abbreviation validate_variant_paths :=
  (JsonSchemaHelper.validate_variant_paths dpath_get).



End ValidateFacts.



(** ** The recursion budget of [_scan_schema] *)

Lemma depth_pos (v : json) : 1 <= depth v.
Proof. destruct v; cbn [depth]; lia. Qed.

Lemma depth_list_cons (x : json) (r : list json) :
  depth (JList (x :: r)) = Nat.max (S (depth x)) (depth (JList r)).
Proof. cbn [depth]. lia. Qed.

Lemma depth_dict_cons (kv : string * json) (r : list (string * json)) :
  depth (JDict (kv :: r)) = Nat.max (S (depth (snd kv))) (depth (JDict r)).
Proof. cbn [depth]. lia. Qed.

Lemma depth_In_list (x : json) (xs : list json) :
  In x xs -> depth x < depth (JList xs).
Proof.
  induction xs as [|y r IH]; intros Hin; [contradiction|].
  rewrite depth_list_cons.
  destruct Hin as [->|Hin]; [lia|]. specialize (IH Hin). lia.
Qed.

Lemma depth_In_dict (kv : string * json) (kvs : list (string * json)) :
  In kv kvs -> depth (snd kv) < depth (JDict kvs).
Proof.
  induction kvs as [|y r IH]; intros Hin; [contradiction|].
  rewrite depth_dict_cons.
  destruct Hin as [->|Hin]; [lia|]. specialize (IH Hin). lia.
Qed.

Lemma assoc_In (k : string) (kvs : list (string * json)) (v : json) :
  Py.assoc k kvs = Some v -> In (k, v) kvs.
Proof.
  induction kvs as [|[k' v'] r IH]; [discriminate|].
  cbn [Py.assoc]. destruct (String.eqb k k') eqn:E.
  - apply String.eqb_eq in E as <-. intros [= <-]. left. reflexivity.
  - intros H. right. apply IH, H.
Qed.

Lemma depth_assoc (k : string) (kvs : list (string * json)) (v : json) :
  Py.assoc k kvs = Some v -> depth v < depth (JDict kvs).
Proof.
  intros H. exact (depth_In_dict (k, v) kvs (assoc_In k kvs v H)).
Qed.

(** [{"type": "object", **s}] is no deeper than [s], or has depth 2. *)
Lemma depth_as_object (s branch : json) :
  as_object s = Ok branch -> depth branch <= Nat.max (depth s) 2.
Proof.
  destruct s as [| | | | |kvs]; try discriminate. cbn [as_object].
  intros [= <-].
  assert (Htype : depth (match Py.assoc "type" kvs with
                         | Some v => v
                         | None => JStr "object"
                         end) < Nat.max (depth (JDict kvs)) 2).
  { destruct (Py.assoc "type" kvs) as [v|] eqn:E.
    - apply depth_assoc in E. lia.
    - pose proof (depth_pos (JDict kvs)). cbn [depth]. lia. }
  assert (Hrest : depth (JDict (filter
                                  (fun kv => negb (String.eqb (fst kv) "type"))
                                  kvs))
                  <= depth (JDict kvs)).
  { clear. induction kvs as [|kv r IH]; [cbn [filter]; lia|].
    cbn [filter]. rewrite depth_dict_cons.
    destruct (negb (String.eqb (fst kv) "type"));
      rewrite ?depth_dict_cons; lia. }
  rewrite depth_dict_cons. cbn [snd]. lia.
Qed.

Lemma bind_neq {A B : Type} (m : result A) (k : A -> result B) (e : exn) :
  m <> Raise e ->
  (forall a, m = Ok a -> k a <> Raise e) ->
  bind m k <> Raise e.
Proof.
  intros Hm Hk. destruct m as [a|e']; cbn [bind].
  - apply Hk. reflexivity.
  - intros [= ->]. apply Hm. reflexivity.
Qed.

Lemma for_each_neq {A S : Type} (body : A -> S -> result S) (xs : list A)
    (e : exn) :
  (forall x, In x xs -> forall s, body x s <> Raise e) ->
  forall s, Py.for_each body xs s <> Raise e.
Proof.
  induction xs as [|x r IH]; intros Hbody s; cbn [Py.for_each].
  - discriminate.
  - apply bind_neq.
    + apply Hbody. left. reflexivity.
    + intros s' _. apply IH. intros y Hy. apply Hbody. right. exact Hy.
Qed.

(** What a loop over [v] yields is a string (a key or a character) or a
    strictly shallower element of [v]. *)
Lemma iter_items (v : json) (items : list json) :
  Py.iter v = Ok items ->
  forall x, In x items -> (exists s, x = JStr s) \/ depth x < depth v.
Proof.
  destruct v as [| | |s|xs|kvs]; try discriminate; intros [= <-] x Hin.
  - left. unfold Py.chars in Hin. apply in_map_iff in Hin as (c & <- & _).
    eexists. reflexivity.
  - right. apply depth_In_list, Hin.
  - left. apply in_map_iff in Hin as (k & <- & _). eexists. reflexivity.
Qed.

(** With fuel for the depth of the schema, [_scan_schema] never runs out:
    whatever it returns or raises is what the Python closure does. *)
Lemma _scan_schema_fuel (fuel : nat) :
  forall (subschema : json) (path : string) (pathes : list string),
    depth subschema <= fuel ->
    _scan_schema fuel subschema path pathes <> Raise RecursionError.
Proof.
  induction fuel as [|fuel IH]; intros subschema path pathes Hd.
  - pose proof (depth_pos subschema). lia.
  - destruct subschema as [|b|n|s|xs|kvs].
    1-3: discriminate.
    + cbn [_scan_schema Py.contains_str bind].
      destruct (Py.contains "oneOf" s); cbn [bind]; [discriminate|].
      destruct (Py.contains "anyOf" s); discriminate.
    + cbn [_scan_schema Py.contains_str bind].
      destruct (existsb _ xs); cbn [bind]; [discriminate|].
      destruct (existsb _ xs); discriminate.
    + destruct (Py.assoc "oneOf" kvs) as [one|] eqn:Hone;
        [|destruct (Py.assoc "anyOf" kvs) as [any|] eqn:Hany].
      3: {
        rewrite _scan_schema_by_type by assumption.
        destruct (Py.mem_str "object" (effective_type kvs)).
        - cbn [Py.get bind].
          destruct (Py.assoc "properties" kvs) as [props|] eqn:Hprops;
            [|discriminate].
          apply depth_assoc in Hprops.
          destruct (negb (Py.truthy props)); [discriminate|].
          destruct props as [| | | | |pkvs]; try discriminate.
          apply for_each_neq. intros kv Hkv ps. apply IH.
          apply depth_In_dict in Hkv. lia.
        - destruct (Py.mem_str "array" (effective_type kvs)) eqn:Harr;
            [|discriminate].
          apply IH. unfold items_or_empty.
          destruct (Py.assoc "items" kvs) as [items|] eqn:Hitems.
          + apply depth_assoc in Hitems. lia.
          + unfold effective_type in Harr.
            destruct (Py.assoc "type" kvs) as [type|] eqn:Htype;
              [|discriminate].
            apply depth_assoc in Htype. pose proof (depth_pos type).
            cbn [depth]. lia.
      }
      all: rewrite _scan_schema_variants
        by (rewrite ?Hone, ?Hany; first [left; discriminate|right; discriminate]).
      all: assert (Hv : variant_branches kvs = JNull
                        \/ depth (variant_branches kvs) < depth (JDict kvs))
        by (unfold variant_branches; rewrite Hone, ?Hany;
            try (apply depth_assoc in Hany);
            try (pose proof (depth_assoc _ _ _ Hone));
            cbn [Py.truthy];
            repeat match goal with
                   | |- context [if ?c then _ else _] => destruct c
                   | |- context [match Py.assoc ?k ?l with _ => _ end] =>
                       let E := fresh "E" in
                       destruct (Py.assoc k l) eqn:E;
                       [apply depth_assoc in E|]
                   end; auto).
      all: destruct Hv as [->|Hv]; [discriminate|].
      all: apply bind_neq;
        [destruct (variant_branches kvs); discriminate|].
      all: intros branches Hiter; apply for_each_neq; intros x Hx ps.
      all: destruct (iter_items _ _ Hiter x Hx) as [[s ->]|Hdx];
        [discriminate|].
      all: apply bind_neq; [destruct x; discriminate|].
      all: intros branch Hbranch; apply IH.
      all: apply depth_as_object in Hbranch.
      all: pose proof (depth_pos x); lia.
Qed.

(** More fuel changes nothing once there is enough. *)

Lemma _scan_schema_S (fuel : nat) (subschema : json) (path : string)
    (pathes : list string) :
  _scan_schema (S fuel) subschema path pathes
  = scan_step (_scan_schema fuel) subschema path pathes.
Proof. reflexivity. Qed.

Lemma for_each_agree {A S : Type} (body1 body2 : A -> S -> result S)
    (xs : list A) (r : result S) :
  r <> Raise RecursionError ->
  (forall x s r', body1 x s = r' -> r' <> Raise RecursionError ->
                  body2 x s = r') ->
  forall s, Py.for_each body1 xs s = r -> Py.for_each body2 xs s = r.
Proof.
  intros Hr Hbody. induction xs as [|x xs IH]; intros s H; [exact H|].
  cbn [Py.for_each] in *. destruct (body1 x s) as [s'|e] eqn:E.
  - rewrite (Hbody x s (Ok s') E) by discriminate. cbn [bind] in *.
    apply IH, H.
  - cbn [bind] in H. subst r. rewrite (Hbody x s (Raise e) E) by exact Hr.
    reflexivity.
Qed.

Lemma scan_step_agree
    (scan1 scan2 : json -> string -> list string -> result (list string)) :
  (forall s p ps r, scan1 s p ps = r -> r <> Raise RecursionError ->
                    scan2 s p ps = r) ->
  forall s p ps r,
    scan_step scan1 s p ps = r -> r <> Raise RecursionError ->
    scan_step scan2 s p ps = r.
Proof.
  intros Hscan s p ps r H Hr. unfold scan_step in *.
  destruct (Py.contains_str "oneOf" s) as [has_one|e]; [|exact H].
  cbn [bind] in *.
  destruct (if has_one then Ok true else Py.contains_str "anyOf" s)
    as [[|]|e]; [| |exact H]; cbn [bind] in *.
  - destruct (Py.get s "oneOf" JNull) as [one_of|e]; [|exact H].
    cbn [bind] in *.
    destruct (if Py.truthy one_of then Ok one_of else Py.get s "anyOf" JNull)
      as [v|e]; [|exact H].
    cbn [bind] in *.
    destruct (Py.iter v) as [branches|e]; [|exact H]. cbn [bind] in *.
    revert H. apply for_each_agree; [exact Hr|].
    intros x st r' Hx Hr'. destruct (as_object x) as [branch|e]; [|exact Hx].
    cbn [bind] in *. apply Hscan; assumption.
  - destruct (Py.get s "type" (JList [JStr "null"])) as [type|e]; [|exact H].
    cbn [bind] in *.
    destruct (Py.mem_str "object" (Py.as_list type)).
    + destruct (Py.get s "properties" JNull) as [props|e]; [|exact H].
      cbn [bind] in *.
      destruct (negb (Py.truthy props)); [exact H|].
      destruct props as [| | | | |kvs]; try exact H.
      revert H. apply for_each_agree; [exact Hr|].
      intros kv st r' Hkv Hr'. apply Hscan; assumption.
    + destruct (Py.mem_str "array" (Py.as_list type)); [|exact H].
      destruct (Py.get s "items" (JDict [])) as [items|e]; [|exact H].
      cbn [bind] in *. apply Hscan; assumption.
Qed.

Lemma _scan_schema_more_fuel (fuel : nat) :
  forall (subschema : json) (path : string) (pathes : list string)
         (r : result (list string)),
    _scan_schema fuel subschema path pathes = r ->
    r <> Raise RecursionError ->
    _scan_schema (S fuel) subschema path pathes = r.
Proof.
  induction fuel as [|fuel IH]; intros s p ps r H Hr.
  - cbn [_scan_schema] in H. congruence.
  - rewrite _scan_schema_S in *. revert H Hr. apply scan_step_agree, IH.
Qed.

(** Any budget of at least the depth of the schema gives the result the
    depth gives. *)
Lemma _scan_schema_enough_fuel (extra : nat) (subschema : json)
    (path : string) (pathes : list string) :
  _scan_schema (extra + depth subschema) subschema path pathes
  = _scan_schema (depth subschema) subschema path pathes.
Proof.
  induction extra as [|extra IH]; [reflexivity|].
  cbn [Nat.add]. apply _scan_schema_more_fuel; [exact IH|].
  apply _scan_schema_fuel. lia.
Qed.

(** * Further properties *)

(** ** A schema and the records that conform to it *)

Lemma no_variants_keys (kvs : list (string * json)) :
  no_variants kvs = true ->
  Py.assoc "oneOf" kvs = None /\ Py.assoc "anyOf" kvs = None.
Proof.
  unfold no_variants.
  destruct (Py.assoc "oneOf" kvs); [discriminate|].
  destruct (Py.assoc "anyOf" kvs); [discriminate|]. split; reflexivity.
Qed.

Lemma _traverse_obj_leaf (v : json) (path : string) :
  is_leaf v = true -> _traverse_obj_and_get_path v path = [path].
Proof.
  destruct v as [| | | |[|x xs]|kvs]; intros H; try discriminate H;
    reflexivity.
Qed.

Lemma _traverse_obj_dict (kvs : list (string * json)) (path : string) :
  _traverse_obj_and_get_path (JDict kvs) path
  = flat_map
      (fun kv =>
         _traverse_obj_and_get_path (snd kv) (path ++ "/" ++ fst kv)%string)
      kvs.
Proof.
  cbn [_traverse_obj_and_get_path].
  induction kvs as [|[k v] r IH]; [reflexivity|].
  cbn [flat_map fst snd]. f_equal. exact IH.
Qed.

Lemma depth_items_or_empty (kvs : list (string * json)) :
  Py.mem_str "array" (effective_type kvs) = true ->
  depth (items_or_empty kvs) < depth (JDict kvs).
Proof.
  intros Harr. unfold items_or_empty.
  destruct (Py.assoc "items" kvs) as [items|] eqn:Hitems.
  - apply depth_assoc in Hitems. exact Hitems.
  - unfold effective_type in Harr.
    destruct (Py.assoc "type" kvs) as [type|] eqn:Htype; [|discriminate].
    apply depth_assoc in Htype. pose proof (depth_pos type).
    cbn [depth] in *. lia.
Qed.

(** On a record that conforms to the schema, the scan of the schema
    appends the paths of the record. *)
Lemma _scan_schema_conforms (fuel : nat) :
  forall (record schema : json) (path : string) (pathes : list string),
    conforms record schema ->
    depth schema <= fuel ->
    _scan_schema fuel schema path pathes
    = Ok (pathes ++ _traverse_obj_and_get_path record path).
Proof.
  induction fuel as [|fuel IH]; intros record schema path pathes Hc Hd.
  - pose proof (depth_pos schema). lia.
  - inversion Hc as [v kvs Hnv Hobj Harr Hleaf
                    |fields kvs props Hnv Hobj Hprops Hne Hall
                    |first others kvs Hnv Hobj Harr Hitems]; subst.
    + apply no_variants_keys in Hnv as [Hone Hany].
      rewrite _scan_schema_by_type, Hobj, Harr by assumption.
      rewrite _traverse_obj_leaf by exact Hleaf. reflexivity.
    + apply no_variants_keys in Hnv as [Hone Hany].
      rewrite _scan_schema_by_type, Hobj by assumption.
      cbn [Py.get]. rewrite Hprops. cbn [bind].
      destruct props as [|p props]; [contradiction Hne; reflexivity|].
      cbn [Py.truthy negb]. rewrite _traverse_obj_dict.
      assert (Hdepth : forall kv, In kv (p :: props) -> depth (snd kv) <= fuel).
      { intros kv Hkv. apply depth_In_dict in Hkv.
        apply depth_assoc in Hprops. lia. }
      clear Hprops Hne Hc Hd. revert pathes Hdepth.
      induction Hall as [|field prop fields' props' [Hk Hfp] _ IHall];
        intros pathes Hdepth.
      * cbn [Py.for_each flat_map]. rewrite app_nil_r. reflexivity.
      * cbn [Py.for_each flat_map].
        rewrite (IH (snd field) (snd prop)), Hk.
        -- cbn [bind]. rewrite IHall.
           ++ rewrite app_assoc. reflexivity.
           ++ intros kv Hkv. apply Hdepth. right. exact Hkv.
        -- exact Hfp.
        -- apply Hdepth. left. reflexivity.
    + apply no_variants_keys in Hnv as [Hone Hany].
      rewrite _scan_schema_by_type, Hobj, Harr by assumption.
      cbn [_traverse_obj_and_get_path].
      apply IH; [exact Hitems|].
      apply depth_items_or_empty in Harr. lia.
Qed.

Section ExpectedStructureFacts.

Variable replace_refs : json -> result json.

(** X1.  When the schema, once its references are replaced, is made of
    objects with properties, arrays and leaves, and a record conforms to
    it, the paths expected from the schema are exactly the paths of the
    record, in the same order. *)
Theorem expected_structure_of_conforming_record :
  forall (schema resolved record : json),
    replace_refs schema = Ok resolved ->
    conforms record resolved ->
    get_expected_schema_structure replace_refs schema
    = Ok (get_object_structure record).
Proof.
  intros schema resolved record Hrefs Hc.
  unfold get_expected_schema_structure, get_object_structure.
  rewrite Hrefs. cbn [bind].
  rewrite (_scan_schema_conforms _ record) by (assumption || lia).
  reflexivity.
Qed.

End ExpectedStructureFacts.

Lemma tagged_record_conforms : conforms tagged_record tagged_schema.
Proof.
  eapply conforms_object; try reflexivity; [discriminate|].
  constructor; [split; [reflexivity|]|].
  - apply conforms_leaf; reflexivity.
  - constructor; [split; [reflexivity|]|constructor].
    apply conforms_array; try reflexivity.
    apply conforms_leaf; reflexivity.
Qed.

(** X1 on a record with an integer and a list of strings. *)
Lemma expected_structure_of_conforming_record_witness :
  get_expected_schema_structure Ok tagged_schema = Ok ["/id"; "/tags/[]"]
  /\ get_object_structure tagged_record = ["/id"; "/tags/[]"].
Proof.
  split.
  - exact (expected_structure_of_conforming_record Ok tagged_schema
             tagged_schema tagged_record eq_refl tagged_record_conforms).
  - reflexivity.
Defined.

(** ** What [find_variant_paths] finds *)

Lemma traverse_schema_head (_schema : json) (path : list json) :
  exists deeper,
    JsonSchemaHelper.traverse_schema _schema path
    = record_variant path ++ deeper.
Proof.
  destruct _schema; eexists; reflexivity.
Qed.

(** Every path recorded from [_schema] under [path] is [path] followed by
    segments that lead to a node of [_schema]. *)
Lemma traverse_schema_sound (_schema : json) :
  forall (path p : list json),
    In p (JsonSchemaHelper.traverse_schema _schema path) ->
    exists q n,
      p = path ++ q /\ reaches _schema q n
      /\ JsonSchemaHelper.is_variant_path p = true.
Proof.
  assert (Hrec : forall (s : json) (path p : list json),
             In p (record_variant path) ->
             exists q n,
               p = path ++ q /\ reaches s q n
               /\ JsonSchemaHelper.is_variant_path p = true).
  { intros s path p. unfold record_variant.
    destruct (JsonSchemaHelper.is_variant_path path) eqn:E;
      [|contradiction].
    intros [<-|[]]. exists [], s. rewrite app_nil_r.
    repeat split; [constructor|exact E]. }
  induction _schema as [| | | |xs IH|kvs IH] using json_ind; intros path p Hin;
    try (cbn [JsonSchemaHelper.traverse_schema] in Hin;
         rewrite app_nil_r in Hin; apply Hrec; exact Hin).
  - rewrite traverse_schema_list in Hin.
    apply in_app_or in Hin as [Hin|Hin]; [apply Hrec; exact Hin|].
    unfold traverse_elements in Hin.
    apply in_flat_map in Hin as (item & Hitem & Hin).
    destruct (Py.is_list_or_dict item) eqn:Hc; [|contradiction].
    rewrite Forall_forall in IH.
    destruct (IH item Hitem _ _ Hin) as (q & n & -> & Hreach & Hvar).
    exists (item :: q), n. rewrite <- app_assoc in *.
    repeat split; [|exact Hvar]. now apply reaches_element.
  - rewrite traverse_schema_dict in Hin.
    apply in_app_or in Hin as [Hin|Hin]; [apply Hrec; exact Hin|].
    unfold traverse_items in Hin.
    apply in_flat_map in Hin as ([k v] & Hkv & Hin). cbn [fst snd] in Hin.
    destruct (Py.is_list_or_dict v) eqn:Hc; [|contradiction].
    rewrite Forall_forall in IH.
    destruct (IH (k, v) Hkv _ _ Hin) as (q & n & -> & Hreach & Hvar).
    exists (JStr k :: q), n. rewrite <- app_assoc in *.
    repeat split; [|exact Hvar]. now apply reaches_key with v.
Qed.

(** Every path to a node of [_schema] that ends in ["oneOf"] or ["anyOf"]
    is recorded. *)
Lemma traverse_schema_complete (_schema : json) (q : list json) (n : json) :
  reaches _schema q n ->
  forall path : list json,
    JsonSchemaHelper.is_variant_path (path ++ q) = true ->
    In (path ++ q) (JsonSchemaHelper.traverse_schema _schema path).
Proof.
  induction 1 as [s|kvs k v q n Hkv Hc _ IH|xs x q n Hx Hc _ IH];
    intros path Hvar.
  - rewrite app_nil_r in *.
    destruct (traverse_schema_head s path) as (deeper & ->).
    apply in_or_app. left. unfold record_variant. rewrite Hvar.
    left. reflexivity.
  - rewrite traverse_schema_dict. apply in_or_app. right.
    unfold traverse_items. apply in_flat_map. exists (k, v).
    split; [exact Hkv|]. cbn [fst snd]. rewrite Hc.
    replace (path ++ JStr k :: q) with ((path ++ [JStr k]) ++ q) in *
      by (rewrite <- app_assoc; reflexivity).
    apply IH, Hvar.
  - rewrite traverse_schema_list. apply in_or_app. right.
    unfold traverse_elements. apply in_flat_map. exists x.
    split; [exact Hx|]. rewrite Hc.
    replace (path ++ x :: q) with ((path ++ [x]) ++ q) in *
      by (rewrite <- app_assoc; reflexivity).
    apply IH, Hvar.
Qed.

(** X2.  [find_variant_paths] returns exactly the paths that lead, through
    lists and mappings only, to a list or mapping of the schema and end in
    ["oneOf"] or ["anyOf"]: nothing else is returned and none is missed,
    at any depth.  A ["oneOf"] whose value is a scalar is not one. *)
Theorem find_variant_paths_exactly_reachable :
  forall (_schema : json) (paths : list (list json)),
    JsonSchemaHelper.find_variant_paths _schema = Ok paths ->
    forall p : list json,
      In p paths
      <-> (exists n, reaches _schema p n)
          /\ JsonSchemaHelper.is_variant_path p = true.
Proof.
  intros _schema paths Hfind p.
  assert (Hcontainer :
            paths = JsonSchemaHelper.traverse_schema _schema []
            \/ (paths = [] /\ exists s, _schema = JStr s)).
  { destruct _schema; try discriminate Hfind; injection Hfind as <-;
      [right; split; [reflexivity|eexists; reflexivity]|left|left];
      reflexivity. }
  destruct Hcontainer as [->|[-> [s ->]]].
  - split.
    + intros Hin.
      destruct (traverse_schema_sound _ _ _ Hin) as (q & n & -> & Hr & Hv).
      split; [exists n; exact Hr|exact Hv].
    + intros [[n Hr] Hv].
      exact (traverse_schema_complete _ _ _ Hr [] Hv).
  - split; [contradiction|].
    intros [[n Hr] Hv]. inversion Hr; subst. discriminate Hv.
Qed.

(** X2 on the nested schema: both of its variant paths are found. *)
Lemma find_variant_paths_exactly_reachable_witness :
  (exists n,
     reaches nested_variant_schema
       [JStr "a"; JStr "anyOf"; inner_variant; JStr "b"; JStr "oneOf"] n)
  /\ JsonSchemaHelper.is_variant_path
       [JStr "a"; JStr "anyOf"; inner_variant; JStr "b"; JStr "oneOf"] = true.
Proof.
  exact (proj1 (find_variant_paths_exactly_reachable nested_variant_schema _
                  eq_refl _)
           (or_intror (or_introl eq_refl))).
Defined.

(** ** [validate_variant_paths] as a check *)

Lemma for_each_app {A S : Type} (body : A -> S -> result S)
    (xs ys : list A) :
  forall s : S,
    Py.for_each body (xs ++ ys) s
    = (s' <- Py.for_each body xs s ;; Py.for_each body ys s').
Proof.
  induction xs as [|x xs IH]; intros s; [reflexivity|].
  cbn [app Py.for_each]. destruct (body x s) as [s'|e]; [|reflexivity].
  cbn [bind]. apply IH.
Qed.

Lemma traverse_map {A B : Type} (f : A -> result B) (g : A -> B)
    (xs : list A) :
  (forall x, In x xs -> f x = Ok (g x)) ->
  traverse f xs = Ok (map g xs).
Proof.
  induction xs as [|x xs IH]; intros H; [reflexivity|].
  cbn [traverse map]. rewrite (H x) by (left; reflexivity). cbn [bind].
  rewrite IH by (intros y Hy; apply H; right; exact Hy). reflexivity.
Qed.

Lemma forallb_id_map {A : Type} (f : A -> bool) (xs : list A) :
  forallb (fun b => b) (map f xs) = forallb f xs.
Proof.
  induction xs as [|x xs IH]; [reflexivity|].
  cbn [map forallb]. rewrite IH. reflexivity.
Qed.

Lemma existsb_id_map {A : Type} (f : A -> bool) (xs : list A) :
  existsb (fun b => b) (map f xs) = existsb f xs.
Proof.
  induction xs as [|x xs IH]; [reflexivity|].
  cbn [map existsb]. rewrite IH. reflexivity.
Qed.

Lemma join_non_str (sep : string) (xs : list json) :
  existsb (fun v => negb (is_str v)) xs = true ->
  Py.join sep xs = Raise TypeError.
Proof.
  induction xs as [|x r IH]; [discriminate|].
  destruct x as [| | |s| |]; try reflexivity.
  cbn [existsb is_str negb orb]. intros Hr.
  specialize (IH Hr). destruct r as [|y r']; [discriminate Hr|].
  cbn [Py.join] in *. rewrite IH. reflexivity.
Qed.

(** The loop that asserts ["properties" in variant]. *)
Lemma assert_properties (branches : list json) :
  forallb well_formed_branch branches = true ->
  Py.for_each
    (fun variant (_ : unit) =>
       has <- Py.contains_str "properties" variant ;; py_assert has)
    branches tt
  = if forallb has_properties branches then Ok tt else Raise AssertionError.
Proof.
  induction branches as [|b r IH]; [reflexivity|].
  cbn [forallb Py.for_each]. intros Hwf.
  apply andb_true_iff in Hwf as [Hb Hr].
  destruct b as [| | | | |kvs]; try discriminate Hb.
  rewrite contains_str_dict. cbn [bind has_properties].
  destruct (Py.assoc "properties" kvs); cbn [py_assert bind andb];
    [apply IH, Hr|reflexivity].
Qed.

(** The property names of each branch. *)
Lemma branch_keys (branches : list json) :
  forallb well_formed_branch branches = true ->
  forallb has_properties branches = true ->
  traverse
    (fun v =>
       properties <- Py.getitem v (JStr "properties") ;;
       Py.dict_keys properties)
    branches
  = Ok (map (fun b => Py.keys (props_of b)) branches).
Proof.
  intros Hwf Hprops. apply traverse_map. intros b Hb.
  rewrite forallb_forall in Hwf, Hprops.
  specialize (Hwf b Hb). specialize (Hprops b Hb).
  destruct b as [| | | | |kvs]; try discriminate Hwf.
  cbn [Py.getitem well_formed_branch has_properties props_of] in *.
  destruct (Py.assoc "properties" kvs) as [[| | | | |props]|];
    try discriminate; reflexivity.
Qed.

(** A property common to every branch is tested for ["const"] in each. *)
Lemma const_in_all_tags (branches : list json) (prop : string) :
  forallb well_formed_branch branches = true ->
  forallb has_properties branches = true ->
  forallb (fun b => Py.mem prop (Py.keys (props_of b))) branches = true ->
  JsonSchemaHelper.const_in_all branches prop
  = Ok (forallb (tags prop) branches).
Proof.
  intros Hwf Hprops Hcommon. unfold JsonSchemaHelper.const_in_all.
  rewrite (traverse_map _ (tags prop)).
  - cbn [bind]. rewrite forallb_id_map. reflexivity.
  - intros b Hb. rewrite forallb_forall in Hwf, Hprops, Hcommon.
    specialize (Hwf b Hb). specialize (Hprops b Hb).
    specialize (Hcommon b Hb). rewrite mem_keys_assoc in Hcommon.
    unfold tags.
    destruct b as [| | | | |kvs]; try discriminate Hwf.
    cbn [Py.getitem well_formed_branch has_properties props_of] in *.
    destruct (Py.assoc "properties" kvs) as [[| | | | |props]|];
      try discriminate.
    cbn [bind Py.getitem].
    destruct (Py.assoc prop props) as [node|] eqn:Hnode; [|discriminate].
    cbn [bind]. rewrite forallb_forall in Hwf.
    pose proof (Hwf (prop, node) (assoc_In _ _ _ Hnode)) as Hdict.
    destruct node as [| | | | |nkvs]; try discriminate Hdict.
    rewrite contains_str_dict. reflexivity.
Qed.

Lemma tags_mem (prop : string) (branch : json) :
  tags prop branch = true -> Py.mem prop (Py.keys (props_of branch)) = true.
Proof.
  unfold tags. rewrite mem_keys_assoc.
  destruct (Py.assoc prop (props_of branch)); [reflexivity|discriminate].
Qed.

(** The common properties hold a tag exactly when the properties of the
    first branch do. *)
Lemma common_props_tag (first : json) (others : list json) :
  let common :=
    filter
      (fun k =>
         forallb (Py.mem k) (map (fun b => Py.keys (props_of b)) others))
      (Py.keys (props_of first)) in
  (match common with [] => false | _ :: _ => true end
   && existsb (fun prop => forallb (tags prop) (first :: others)) common)%bool
  = existsb (fun prop => forallb (tags prop) (first :: others))
      (Py.keys (props_of first)).
Proof.
  intros common.
  destruct (existsb (fun prop => forallb (tags prop) (first :: others))
              (Py.keys (props_of first))) eqn:E.
  - apply existsb_exists in E as (prop & Hin & Htag).
    assert (Hc : In prop common).
    { apply filter_In. split; [exact Hin|].
      cbn [forallb] in Htag. apply andb_true_iff in Htag as [_ Ho].
      rewrite forallb_forall in *. intros ks Hks.
      apply in_map_iff in Hks as (b & <- & Hb).
      apply tags_mem, Ho, Hb. }
    assert (Hex : existsb (fun prop => forallb (tags prop) (first :: others))
                    common = true)
      by (apply existsb_exists; exists prop; split; assumption).
    rewrite Hex. destruct common; [contradiction|reflexivity].
  - destruct (existsb _ common) eqn:E'; [|apply andb_false_r].
    apply existsb_exists in E' as (prop & Hin & Htag).
    apply filter_In in Hin as [Hin _].
    assert (existsb (fun prop => forallb (tags prop) (first :: others))
              (Py.keys (props_of first)) = true)
      by (apply existsb_exists; exists prop; split; assumption).
    congruence.
Qed.

(** In a variant path the last segment is a string, so a segment that is
    not one comes before it. *)
Lemma variant_path_inner_segment (path : list json) :
  JsonSchemaHelper.is_variant_path path = true ->
  existsb (fun v => negb (is_str v)) path = true ->
  existsb (fun v => negb (is_str v)) (removelast path) = true.
Proof.
  destruct (rev path) as [|x l] eqn:E.
  - unfold JsonSchemaHelper.is_variant_path. rewrite E. discriminate.
  - assert (Hp : path = rev l ++ [x])
      by (rewrite <- (rev_involutive path), E; reflexivity).
    subst path. unfold JsonSchemaHelper.is_variant_path.
    rewrite E, removelast_last, existsb_app. cbn [existsb].
    intros Hlast. destruct x; try discriminate Hlast.
    cbn [is_str negb orb]. rewrite !orb_false_r. trivial.
Qed.

Section ValidateCheck.

Variable dpath_get : json -> string -> result json.

(** The rules, once the container is known. *)
Lemma rules_on_container (_schema : json) (variant_path : list json)
    (glob : string) (container : list (string * json))
    (branches : list json) :
  Py.join "/" variant_path = Ok glob ->
  dpath_get _schema glob = Ok (JList branches) ->
  forallb well_formed_branch branches = true ->
  (type <- Py.get (JDict container) "type" JNull ;;
   _ <- py_assert (Py.atom_eqb type (JStr "object")) ;;
   glob <- Py.join "/" variant_path ;;
   variants <- dpath_get _schema glob ;;
   variants <- Py.iter variants ;;
   _ <- Py.for_each
          (fun variant _ =>
             has <- Py.contains_str "properties" variant ;; py_assert has)
          variants tt ;;
   variant_props <- traverse
                      (fun v =>
                         properties <- Py.getitem v (JStr "properties") ;;
                         Py.dict_keys properties)
                      variants ;;
   common_props <- Py.set_intersection variant_props ;;
   _ <- py_assert (match common_props with [] => false | _ => true end) ;;
   flags <- traverse (JsonSchemaHelper.const_in_all variants) common_props ;;
   py_assert (existsb (fun b => b) flags))
  = variant_check container branches.
Proof.
  intros Hglob Hv Hwf. unfold variant_check. cbn [bind Py.get].
  destruct (Py.assoc "type" container) as [type|]; [|reflexivity].
  destruct type as [| | |t| |]; try reflexivity.
  cbn [Py.atom_eqb]. destruct (String.eqb t "object") eqn:Et.
  2: { cbn [py_assert bind].
       destruct t as [|c t']; [reflexivity|].
       repeat (match goal with
               | |- context [match ?x with _ => _ end] =>
                   destruct x; try reflexivity; try discriminate Et
               end). }
  apply String.eqb_eq in Et as ->. cbn [py_assert bind].
  rewrite Hglob. cbn [bind]. rewrite Hv. cbn [bind Py.iter].
  rewrite assert_properties by exact Hwf.
  destruct (forallb has_properties branches) eqn:Hprops.
  2: { cbn [bind andb]. destruct branches; [discriminate Hprops|reflexivity]. }
  cbn [bind andb]. rewrite branch_keys by assumption. cbn [bind].
  destruct branches as [|first others]; [reflexivity|].
  cbn [map Py.set_intersection bind].
  rewrite <- common_props_tag. cbv zeta.
  set (common := filter _ (Py.keys (props_of first))).
  assert (Hflags :
            traverse (JsonSchemaHelper.const_in_all (first :: others)) common
            = Ok (map (fun prop => forallb (tags prop) (first :: others))
                    common)).
  { apply traverse_map. intros prop Hprop.
    apply const_in_all_tags; try assumption.
    apply filter_In in Hprop as [Hin Hall].
    cbn [forallb]. apply andb_true_iff. split.
    - unfold Py.mem. apply existsb_exists. exists prop.
      split; [exact Hin|apply String.eqb_refl].
    - rewrite forallb_forall in *. intros b Hb. apply Hall.
      apply in_map_iff. exists b. split; [reflexivity|exact Hb]. }
  destruct common as [|c cs] eqn:Ecommon; [reflexivity|].
  cbn [py_assert bind andb]. rewrite Hflags. cbn [bind].
  rewrite existsb_id_map.
  destruct (existsb _ (c :: cs)); reflexivity.
Qed.

(** X3.  For a container that is a mapping without ["$ref"] and a variant
    that is a list of well-formed branches, validating the path is the
    check of the three rules: the container has type ["object"], every
    branch has ["properties"], and some property of the first branch is
    in every branch with a ["const"].  A failed rule raises
    [AssertionError]; an empty list of branches raises [TypeError]. *)
Theorem validate_variant_path_is_check :
  forall (_schema : json) (variant_path : list json) (top glob : string)
         (container : list (string * json)) (branches : list json),
    Py.join "/" (removelast variant_path) = Ok top ->
    Py.join "/" variant_path = Ok glob ->
    dpath_get _schema top = Ok (JDict container) ->
    Py.assoc "$ref" container = None ->
    dpath_get _schema glob = Ok (JList branches) ->
    forallb well_formed_branch branches = true ->
    JsonSchemaHelper.validate_variant_path dpath_get _schema variant_path
    = variant_check container branches.
Proof.
  intros _schema variant_path top glob container branches
    Htop Hglob Hc Href Hv Hwf.
  unfold JsonSchemaHelper.validate_variant_path,
    JsonSchemaHelper.get_top_level_item.
  rewrite Htop. cbn [bind]. rewrite Hc. cbn [bind].
  rewrite contains_str_dict, Href. cbn [bind].
  apply (rules_on_container _schema variant_path glob);
    assumption.
Qed.

(** X15.  When the container carries a ["$ref"], the rules are checked on
    the entry of the root's ["definitions"] named by the last segment of
    the pointer: the rest of the pointer and the container's own keys,
    its ["type"] included, play no part. *)
Theorem validate_variant_path_ref_container :
  forall (_schema : json) (variant_path : list json) (top glob : string)
         (container : list (string * json)) (pointer : string)
         (definitions : json) (target : list (string * json))
         (branches : list json),
    Py.join "/" (removelast variant_path) = Ok top ->
    Py.join "/" variant_path = Ok glob ->
    dpath_get _schema top = Ok (JDict container) ->
    Py.assoc "$ref" container = Some (JStr pointer) ->
    Py.getitem _schema (JStr "definitions") = Ok definitions ->
    Py.getitem definitions (JStr (last (Py.split "/" pointer) EmptyString))
    = Ok (JDict target) ->
    dpath_get _schema glob = Ok (JList branches) ->
    forallb well_formed_branch branches = true ->
    JsonSchemaHelper.validate_variant_path dpath_get _schema variant_path
    = variant_check target branches.
Proof.
  intros _schema variant_path top glob container pointer definitions target
    branches Htop Hglob Hc Href Hdefs Htarget Hv Hwf.
  unfold JsonSchemaHelper.validate_variant_path,
    JsonSchemaHelper.get_top_level_item.
  rewrite Htop. cbn [bind]. rewrite Hc. cbn [bind].
  rewrite contains_str_dict, Href. cbn [bind Py.getitem].
  rewrite Href. cbn [bind]. rewrite Hdefs. cbn [bind].
  rewrite Htarget. cbn [bind].
  apply (rules_on_container _schema variant_path glob);
    assumption.
Qed.

(** X4.  The paths are validated in order and the first failure is the
    result: validating [paths ++ more] is validating [paths] and then, if
    that passed, [more]. *)
Theorem validate_variant_paths_app :
  forall (_schema : json) (paths more : list (list json)),
    JsonSchemaHelper.validate_variant_paths dpath_get _schema (paths ++ more)
    = (_ <- JsonSchemaHelper.validate_variant_paths dpath_get _schema paths ;;
       JsonSchemaHelper.validate_variant_paths dpath_get _schema more).
Proof.
  intros _schema paths more.
  unfold JsonSchemaHelper.validate_variant_paths.
  rewrite for_each_app.
  destruct (Py.for_each _ paths tt) as [[]|e]; reflexivity.
Qed.

(** X5.  A variant path (one that ends in ["oneOf"] or ["anyOf"]) with a
    segment that is not a string cannot be joined with ["/"]: validation
    raises [TypeError] before it looks anything up, whatever the schema
    and the paths that follow. *)
Theorem validate_variant_paths_non_string_segment :
  forall (_schema : json) (variant_path : list json)
         (more : list (list json)),
    JsonSchemaHelper.is_variant_path variant_path = true ->
    existsb (fun v => negb (is_str v)) variant_path = true ->
    JsonSchemaHelper.validate_variant_paths dpath_get _schema
      (variant_path :: more)
    = Raise TypeError.
Proof.
  intros _schema variant_path more Hvar Hseg.
  unfold JsonSchemaHelper.validate_variant_paths,
    JsonSchemaHelper.validate_variant_path,
    JsonSchemaHelper.get_top_level_item.
  cbn [Py.for_each].
  rewrite (join_non_str _ _ (variant_path_inner_segment _ Hvar Hseg)).
  reflexivity.
Qed.

End ValidateCheck.

(** X3 on the container of the spec's example. *)
Lemma validate_variant_path_is_check_witness :
  JsonSchemaHelper.validate_variant_path dpath_plain mode_schema
    cfg_variant_path
  = Ok tt.
Proof.
  exact (validate_variant_path_is_check dpath_plain mode_schema
           cfg_variant_path "properties/cfg" "properties/cfg/oneOf"
           [("type", JStr "object"); ("oneOf", mode_variants)]
           [JDict [("properties",
                    JDict [("mode", JDict [("const", JStr "a")])])];
            JDict [("properties",
                    JDict [("mode", JDict [("const", JStr "b")])])]]
           eq_refl eq_refl eq_refl eq_refl eq_refl eq_refl).
Defined.

(** X15 on a container whose pointer is ["#/elsewhere/Mode"] and whose own
    type is ["string"]: the definition ["Mode"] is the one checked, and
    the path passes. *)
Lemma validate_variant_path_ref_container_witness :
  JsonSchemaHelper.validate_variant_path dpath_plain ref_container_schema
    cfg_variant_path
  = Ok tt.
Proof.
  exact (validate_variant_path_ref_container dpath_plain ref_container_schema
           cfg_variant_path "properties/cfg" "properties/cfg/oneOf"
           [("$ref", JStr "#/elsewhere/Mode"); ("type", JStr "string");
            ("oneOf", mode_variants)]
           "#/elsewhere/Mode"
           (JDict [("Mode", JDict [("type", JStr "object")])])
           [("type", JStr "object")]
           [JDict [("properties",
                    JDict [("mode", JDict [("const", JStr "a")])])];
            JDict [("properties",
                    JDict [("mode", JDict [("const", JStr "b")])])]]
           eq_refl eq_refl eq_refl eq_refl eq_refl eq_refl eq_refl eq_refl).
Defined.

(** X5 on the inner path of the nested schema. *)
Lemma validate_variant_paths_non_string_segment_witness :
  JsonSchemaHelper.validate_variant_paths dpath_plain nested_variant_schema
    [[JStr "a"; JStr "anyOf"; inner_variant; JStr "b"; JStr "oneOf"]]
  = Raise TypeError.
Proof.
  exact (validate_variant_paths_non_string_segment dpath_plain
           nested_variant_schema
           [JStr "a"; JStr "anyOf"; inner_variant; JStr "b"; JStr "oneOf"]
           [] eq_refl eq_refl).
Defined.

(** ** [get_ref] and [get_property], piece by piece *)

Lemma split_nonempty (sep : ascii) (s : string) : Py.split sep s <> [].
Proof.
  destruct s as [|c r]; cbn [Py.split]; [discriminate|].
  destruct (Ascii.eqb c sep); [discriminate|].
  destruct (Py.split sep r); discriminate.
Qed.

Lemma split_app (sep : ascii) (p q : string) :
  Py.split sep (p ++ String sep q) = Py.split sep p ++ Py.split sep q.
Proof.
  induction p as [|c p IH]; cbn [String.append Py.split].
  - rewrite Ascii.eqb_refl. reflexivity.
  - rewrite IH. destruct (Ascii.eqb c sep); [reflexivity|].
    pose proof (split_nonempty sep p).
    destruct (Py.split sep p); [contradiction|reflexivity].
Qed.

Lemma split_no_separator_in (sep : ascii) (s : string) :
  Py.contains (String sep EmptyString) s = false -> Py.split sep s = [s].
Proof.
  induction s as [|c r IH]; [reflexivity|].
  cbn [Py.contains prefix]. intros H. apply orb_false_iff in H as [Hc Hr].
  cbn [Py.split]. destruct (Ascii.eqb_spec c sep) as [->|Hne].
  - destruct (ascii_dec sep sep) as [_|n]; [|contradiction n; reflexivity].
    rewrite prefix_empty in Hc. discriminate Hc.
  - rewrite (IH Hr). reflexivity.
Qed.

Lemma reduce_getitem_app (p q : list json) :
  forall obj : json,
    Py.reduce_getitem (p ++ q) obj
    = (node <- Py.reduce_getitem p obj ;; Py.reduce_getitem q node).
Proof.
  induction p as [|k p IH]; intros obj; [reflexivity|].
  cbn [app Py.reduce_getitem].
  destruct (Py.getitem obj k) as [data|e]; [|reflexivity].
  cbn [bind]. apply IH.
Qed.

Lemma get_ref_snoc (_schema : json) (pointer key : string) :
  Py.contains "/" key = false ->
  JsonSchemaHelper.get_ref _schema (JStr (pointer ++ "/" ++ key))
  = (node <- JsonSchemaHelper.get_ref _schema (JStr pointer) ;;
     Py.getitem node (JStr key)).
Proof.
  intros Hkey. unfold JsonSchemaHelper.get_ref.
  change (pointer ++ "/" ++ key)%string
    with (pointer ++ String "/" key)%string.
  rewrite split_app, (split_no_separator_in "/" key Hkey).
  pose proof (split_nonempty "/" pointer).
  destruct (Py.split "/" pointer) as [|root segments]; [contradiction|].
  cbn [app tl]. rewrite map_app, reduce_getitem_app.
  destruct (Py.reduce_getitem (map JStr segments) _schema) as [node|e];
    [|reflexivity].
  cbn [bind map Py.reduce_getitem].
  destruct (Py.getitem node (JStr key)); reflexivity.
Qed.

(** X6.  Resolving a pointer extended by ["/" + key] is resolving the
    pointer and then indexing the node found with [key] as a string.  So
    a pointer cannot go through a list: once a pointer resolves to a list,
    any longer pointer raises [TypeError], a numeric segment included. *)
Theorem get_ref_one_more_segment :
  forall (_schema : json) (pointer key : string),
    Py.contains "/" key = false ->
    JsonSchemaHelper.get_ref _schema (JStr (pointer ++ "/" ++ key))
    = (node <- JsonSchemaHelper.get_ref _schema (JStr pointer) ;;
       Py.getitem node (JStr key))
    /\ (forall xs : list json,
          JsonSchemaHelper.get_ref _schema (JStr pointer) = Ok (JList xs) ->
          JsonSchemaHelper.get_ref _schema (JStr (pointer ++ "/" ++ key))
          = Raise TypeError).
Proof.
  intros _schema pointer key Hkey. split.
  - apply get_ref_snoc, Hkey.
  - intros xs Hxs. rewrite get_ref_snoc, Hxs by exact Hkey. reflexivity.
Qed.

(** X6 on the branches of [mode_container]: ["#/oneOf"] is the list of
    branches and ["#/oneOf/0"] is an error. *)
Lemma get_ref_one_more_segment_witness :
  JsonSchemaHelper.get_ref mode_container (JStr "#/oneOf") = Ok mode_variants
  /\ JsonSchemaHelper.get_ref mode_container (JStr "#/oneOf/0")
     = Raise TypeError.
Proof.
  split; [reflexivity|].
  exact (proj2 (get_ref_one_more_segment mode_container "#/oneOf" "0" eq_refl)
           _ eq_refl).
Defined.

(** X7.  A pointer with no ["/"] in it resolves to the whole schema,
    whatever its text: ["#"], the empty string, or a misspelt name. *)
Theorem get_ref_without_slash_is_root :
  forall (_schema : json) (pointer : string),
    Py.contains "/" pointer = false ->
    JsonSchemaHelper.get_ref _schema (JStr pointer) = Ok _schema.
Proof.
  intros _schema pointer H. unfold JsonSchemaHelper.get_ref.
  rewrite (split_no_separator_in "/" pointer H). reflexivity.
Qed.

Lemma get_ref_without_slash_is_root_witness :
  JsonSchemaHelper.get_ref root_ref_schema (JStr "definitions")
  = Ok root_ref_schema.
Proof.
  exact (get_ref_without_slash_is_root root_ref_schema "definitions" eq_refl).
Defined.

Lemma get_property_from_app (_schema : json) (p q : list json) :
  forall node : json,
    JsonSchemaHelper.get_property_from _schema node (p ++ q)
    = (found <- JsonSchemaHelper.get_property_from _schema node p ;;
       JsonSchemaHelper.get_property_from _schema found q).
Proof.
  induction p as [|segment p IH]; intros node; [reflexivity|].
  cbn [app JsonSchemaHelper.get_property_from].
  destruct (Py.contains_str "$ref" node) as [has_ref|e]; [|reflexivity].
  cbn [bind].
  destruct (if has_ref
            then ref <- Py.getitem node (JStr "$ref") ;;
                 JsonSchemaHelper.get_ref _schema ref
            else Ok node) as [resolved|e]; [|reflexivity].
  cbn [bind].
  destruct (Py.getitem resolved (JStr "properties")) as [properties|e];
    [|reflexivity].
  cbn [bind].
  destruct (Py.getitem properties segment) as [child|e]; [|reflexivity].
  cbn [bind]. apply IH.
Qed.

(** X8.  Looking up a path in two pieces: the property at [p ++ q] is
    found by looking up [p] and carrying on from there along [q], with the
    same errors.  In particular a prefix that cannot be resolved fails the
    longer path with the same error. *)
Theorem get_property_app :
  forall (_schema : json) (p q : list json),
    JsonSchemaHelper.get_property _schema (p ++ q)
    = (found <- JsonSchemaHelper.get_property _schema p ;;
       JsonSchemaHelper.get_property_from _schema found q)
    /\ (forall e : exn,
          JsonSchemaHelper.get_property _schema p = Raise e ->
          JsonSchemaHelper.get_property _schema (p ++ q) = Raise e).
Proof.
  intros _schema p q. unfold JsonSchemaHelper.get_property. split.
  - apply get_property_from_app.
  - intros e He. rewrite get_property_from_app, He. reflexivity.
Qed.

(** ** Fields built from a schema *)

Lemma replace_zero_date (rest : string) :
  Py.replace "0000-00-00" "0001-01-01" ("0000-00-00" ++ rest)
  = ("0001-01-01" ++ Py.replace "0000-00-00" "0001-01-01" rest)%string.
Proof.
  unfold Py.replace. cbn. rewrite !prefix_empty. reflexivity.
Qed.

Section FieldFacts.

Variable DateTime : Type.

(** X9.  [pendulum.parse] is never given a string that starts with
    ["0000-00-00"]: two parsers that agree on every other string give
    [_parse_value] the same result on every field and value. *)
Theorem parse_value_never_parses_zero_date_prefix :
  forall (parse1 parse2 : string -> result DateTime),
    (forall s, prefix "0000-00-00" s = false -> parse1 s = parse2 s) ->
    forall (self : CatalogField.t) (value : json),
      CatalogField._parse_value DateTime parse1 self value
      = CatalogField._parse_value DateTime parse2 self value.
Proof.
  intros parse1 parse2 Hagree self value. unfold CatalogField._parse_value.
  destruct (CatalogField.is_temporal (CatalogField.formats self));
    [|reflexivity].
  destruct value as [| | |s| |]; try reflexivity.
  cbn [andb]. destruct (prefix "0000-00-00" s) eqn:E.
  - destruct (prefix_inv _ _ E) as (rest & ->).
    rewrite replace_zero_date, Hagree; reflexivity.
  - rewrite Hagree by exact E. reflexivity.
Qed.

Variable pendulum_parse : string -> result DateTime.

(** X10.  A property with a temporal ["format"] gets that format alone as
    its format set, whatever its ["type"] says: the field built for it
    raises [ValueError] on a record whose value is [None], also when the
    type lists ["null"]. *)
Theorem temporal_format_field_rejects_null :
  forall (_schema : json) (path : list json) (kvs : list (string * json))
         (type : json) (format : string) (record : json),
    JsonSchemaHelper.get_property _schema path = Ok (JDict kvs) ->
    Py.assoc "type" kvs = Some type ->
    Py.assoc "format" kvs = Some (JStr format) ->
    In format CatalogField.temporal ->
    Py.reduce_getitem path record = Ok JNull ->
    JsonSchemaHelper.field _schema path
    = Ok (CatalogField.mk (JDict kvs) path [JStr format])
    /\ CatalogField.parse DateTime pendulum_parse
         (CatalogField.mk (JDict kvs) path [JStr format]) record None
       = Raise ValueError.
Proof.
  intros _schema path kvs type format record Hget Htype Hformat Hin Hnav.
  split.
  - unfold JsonSchemaHelper.field, CatalogField.init,
      CatalogField._detect_formats.
    rewrite Hget. cbn [bind Py.getitem Py.get]. rewrite Htype, Hformat.
    reflexivity.
  - unfold CatalogField.parse.
    cbn [CatalogField.path CatalogField.path_or]. rewrite Hnav. cbn [bind].
    destruct Hin as [<-|[<-|[<-|[]]]]; reflexivity.
Qed.

End FieldFacts.

(** X9 with a parser that refuses the zero date: the field still parses
    ["0000-00-00T00:00:00"]. *)
Lemma parse_value_never_parses_zero_date_prefix_witness :
  CatalogField._parse_value string strict_parse date_time_field
    (JStr "0000-00-00T00:00:00")
  = Ok (Native "0001-01-01T00:00:00").
Proof.
  rewrite <- (parse_value_never_parses_zero_date_prefix string echo_parse
                strict_parse).
  - reflexivity.
  - intros s Hs. unfold strict_parse. rewrite Hs. reflexivity.
Defined.

(** X10 on a nullable date-time property. *)
Lemma temporal_format_field_rejects_null_witness :
  JsonSchemaHelper.field nullable_property_schema [JStr "updated_at"]
  = Ok (CatalogField.mk
          (JDict [("type", JList [JStr "null"; JStr "string"]);
                  ("format", JStr "date-time")])
          [JStr "updated_at"] [JStr "date-time"])
  /\ CatalogField.parse string echo_parse
       (CatalogField.mk
          (JDict [("type", JList [JStr "null"; JStr "string"]);
                  ("format", JStr "date-time")])
          [JStr "updated_at"] [JStr "date-time"])
       null_record None
     = Raise ValueError.
Proof.
  exact (temporal_format_field_rejects_null string echo_parse
           nullable_property_schema [JStr "updated_at"] _
           (JList [JStr "null"; JStr "string"]) "date-time" null_record
           eq_refl eq_refl eq_refl (or_intror (or_introl eq_refl)) eq_refl).
Defined.

Lemma existsb_filter {A : Type} (f g : A -> bool) (xs : list A) :
  (forall x, f x = true -> g x = true) ->
  existsb f (filter g xs) = existsb f xs.
Proof.
  intros H. induction xs as [|x xs IH]; [reflexivity|].
  cbn [filter existsb]. destruct (g x) eqn:Eg.
  - cbn [existsb]. rewrite IH. reflexivity.
  - rewrite IH. destruct (f x) eqn:Ef; [|reflexivity].
    rewrite (H x Ef) in Eg. discriminate Eg.
Qed.

(** A string is in the set of a list exactly when it is in the list. *)
Lemma mem_str_dedup (x : string) (xs : list json) :
  Py.mem_str x (Py.dedup xs) = Py.mem_str x xs.
Proof.
  unfold Py.mem_str. induction xs as [|y r IH]; [reflexivity|].
  cbn [Py.dedup existsb]. destruct (Py.atom_eqb (JStr x) y) eqn:E;
    [reflexivity|].
  cbn [orb]. rewrite existsb_filter; [exact IH|].
  intros z Hz. destruct z; try discriminate Hz.
  apply String.eqb_eq in Hz as <-.
  destruct y; try reflexivity. cbn [Py.atom_eqb] in *.
  rewrite String.eqb_sym, E. reflexivity.
Qed.

(** X11.  For a schema that has a ["type"], the formats are the values of
    ["format"] if the key is there and of ["type"] otherwise, a scalar
    counting as one value: the result is their set when they are all
    hashable and [TypeError] when one is a list or a mapping, and a string
    is in the set exactly when it is one of the values. *)
Theorem detect_formats_prefers_format :
  forall (kvs : list (string * json)) (type : json),
    Py.assoc "type" kvs = Some type ->
    let values := Py.as_list (match Py.assoc "format" kvs with
                              | Some format => format
                              | None => type
                              end) in
    CatalogField._detect_formats (JDict kvs)
    = (if forallb Py.hashable values then Ok (Py.dedup values)
       else Raise TypeError)
    /\ (forall x : string,
          Py.mem_str x (Py.dedup values) = Py.mem_str x values).
Proof.
  intros kvs type Htype values. split.
  - rewrite (detect_formats_with_type kvs type Htype). reflexivity.
  - intros x. apply mem_str_dedup.
Qed.

(** X11 on a nullable date-time property: the format wins over the
    types. *)
Lemma detect_formats_prefers_format_witness :
  CatalogField._detect_formats
    (JDict [("type", JList [JStr "null"; JStr "string"]);
            ("format", JStr "date-time")])
  = Ok [JStr "date-time"].
Proof.
  exact (proj1 (detect_formats_prefers_format
                  [("type", JList [JStr "null"; JStr "string"]);
                   ("format", JStr "date-time")]
                  (JList [JStr "null"; JStr "string"]) eq_refl)).
Defined.

(** ** The scan of a schema, call by call *)

Lemma for_each_frame {A : Type}
    (body : A -> list string -> result (list string)) (xs : list A) :
  (forall x pathes,
      In x xs ->
      body x pathes = (new <- body x [] ;; Ok (pathes ++ new))) ->
  forall pathes,
    Py.for_each body xs pathes
    = (new <- Py.for_each body xs [] ;; Ok (pathes ++ new)).
Proof.
  induction xs as [|x xs IH]; intros Hbody pathes.
  - cbn [Py.for_each bind]. rewrite app_nil_r. reflexivity.
  - cbn [Py.for_each].
    rewrite (Hbody x pathes) by (left; reflexivity).
    destruct (body x []) as [first|e]; [|reflexivity].
    cbn [bind app].
    assert (Hrest : forall y ps, In y xs ->
                      body y ps = (new <- body y [] ;; Ok (ps ++ new)))
      by (intros y ps Hy; apply Hbody; right; exact Hy).
    rewrite (IH Hrest (pathes ++ first)), (IH Hrest first).
    destruct (Py.for_each body xs []) as [more|e]; [|reflexivity].
    cbn [bind]. rewrite app_assoc. reflexivity.
Qed.

Lemma scan_step_frame
    (scan : json -> string -> list string -> result (list string)) :
  (forall s p ps, scan s p ps = (new <- scan s p [] ;; Ok (ps ++ new))) ->
  forall s p ps,
    scan_step scan s p ps = (new <- scan_step scan s p [] ;; Ok (ps ++ new)).
Proof.
  intros Hscan s p ps. unfold scan_step.
  destruct (Py.contains_str "oneOf" s) as [has_one|e]; [|reflexivity].
  cbn [bind].
  destruct (if has_one then Ok true else Py.contains_str "anyOf" s)
    as [[|]|e]; [| |reflexivity]; cbn [bind].
  - destruct (Py.get s "oneOf" JNull) as [one_of|e]; [|reflexivity].
    cbn [bind].
    destruct (if Py.truthy one_of then Ok one_of else Py.get s "anyOf" JNull)
      as [v|e]; [|reflexivity].
    cbn [bind]. destruct (Py.iter v) as [branches|e]; [|reflexivity].
    cbn [bind]. apply for_each_frame. intros x st _.
    destruct (as_object x) as [branch|e]; [|reflexivity].
    cbn [bind]. apply Hscan.
  - destruct (Py.get s "type" (JList [JStr "null"])) as [type|e];
      [|reflexivity].
    cbn [bind]. destruct (Py.mem_str "object" (Py.as_list type)).
    + destruct (Py.get s "properties" JNull) as [props|e]; [|reflexivity].
      cbn [bind]. destruct (negb (Py.truthy props)); [reflexivity|].
      destruct props as [| | | | |kvs]; try reflexivity.
      apply for_each_frame. intros kv st _. apply Hscan.
    + destruct (Py.mem_str "array" (Py.as_list type)); [|reflexivity].
      destruct (Py.get s "items" (JDict [])) as [items|e]; [|reflexivity].
      cbn [bind]. apply Hscan.
Qed.

(** X12.  A call of [_scan_schema] only appends to [pathes]: what it
    appends, and whether it raises, does not depend on the paths already
    collected. *)
Theorem scan_schema_only_appends :
  forall (fuel : nat) (subschema : json) (path : string)
         (pathes : list string),
    _scan_schema fuel subschema path pathes
    = (new <- _scan_schema fuel subschema path [] ;; Ok (pathes ++ new)).
Proof.
  induction fuel as [|fuel IH]; intros subschema path pathes.
  - reflexivity.
  - rewrite !_scan_schema_S. apply scan_step_frame, IH.
Qed.

(** X14.  A mapping whose ["oneOf"] is empty (or otherwise false) and
    that has no ["anyOf"] is taken for a variant all the same and raises
    [TypeError]: [None] is what it tries to iterate. *)
Theorem scan_schema_empty_one_of :
  forall (fuel : nat) (kvs : list (string * json)) (one_of : json)
         (path : string) (pathes : list string),
    Py.assoc "oneOf" kvs = Some one_of ->
    Py.truthy one_of = false ->
    Py.assoc "anyOf" kvs = None ->
    _scan_schema (S fuel) (JDict kvs) path pathes = Raise TypeError.
Proof.
  intros fuel kvs one_of path pathes Hone Hfalse Hany.
  rewrite _scan_schema_variants by (left; rewrite Hone; discriminate).
  unfold variant_branches. rewrite Hone, Hfalse, Hany. reflexivity.
Qed.

Lemma scan_schema_empty_one_of_witness :
  _scan_schema 1 (JDict [("type", JStr "object"); ("oneOf", JList [])]) "/cfg"
    ["/id"]
  = Raise TypeError.
Proof.
  exact (scan_schema_empty_one_of 0
           [("type", JStr "object"); ("oneOf", JList [])] (JList [])
           "/cfg" ["/id"] eq_refl eq_refl eq_refl).
Defined.

(** ** The branches of a variant *)

(** The scan reads a mapping through its keys only. *)
Lemma _scan_schema_same_keys (fuel : nat) (kvs1 kvs2 : list (string * json))
    (path : string) (pathes : list string) :
  (forall k, Py.assoc k kvs1 = Py.assoc k kvs2) ->
  _scan_schema fuel (JDict kvs1) path pathes
  = _scan_schema fuel (JDict kvs2) path pathes.
Proof.
  intros H. destruct fuel as [|fuel]; [reflexivity|].
  rewrite !_scan_schema_S. unfold scan_step.
  rewrite !contains_str_dict. cbn [Py.get]. rewrite !H. reflexivity.
Qed.

Lemma assoc_without_type (k : string) (kvs : list (string * json)) :
  String.eqb k "type" = false ->
  Py.assoc k (filter (fun kv => negb (String.eqb (fst kv) "type")) kvs)
  = Py.assoc k kvs.
Proof.
  intros Hk. induction kvs as [|[k' v] kvs IH]; [reflexivity|].
  cbn [filter fst Py.assoc]. destruct (String.eqb k' "type") eqn:Ek'.
  - cbn [negb]. apply String.eqb_eq in Ek' as ->. rewrite Hk. exact IH.
  - cbn [negb Py.assoc]. destruct (String.eqb k k'); [reflexivity|exact IH].
Qed.

(** X16.  In a variant, a branch is scanned with the type it declares;
    the type ["object"] is given only to a branch that declares none.  So
    scanning a branch that has a ["type"] as part of a variant is scanning
    it on its own, and a branch without one is scanned as the same mapping
    with ["type": "object"] added. *)
Theorem variant_branch_keeps_its_type :
  forall (fuel : nat) (branch : list (string * json)) (path : string)
         (pathes : list string),
    (branch <- as_object (JDict branch) ;;
     _scan_schema fuel branch path pathes)
    = match Py.assoc "type" branch with
      | Some _ => _scan_schema fuel (JDict branch) path pathes
      | None =>
          _scan_schema fuel (JDict (("type", JStr "object") :: branch))
            path pathes
      end.
Proof.
  intros fuel branch path pathes. cbn [as_object bind].
  destruct (Py.assoc "type" branch) as [type|] eqn:Htype;
    apply _scan_schema_same_keys; intros k; cbn [Py.assoc];
    destruct (String.eqb k "type") eqn:Ek.
  - apply String.eqb_eq in Ek as ->. symmetry. exact Htype.
  - apply assoc_without_type, Ek.
  - reflexivity.
  - apply assoc_without_type, Ek.
Qed.

Section ParseFacts.

Variable DateTime : Type.
Variable pendulum_parse : string -> result DateTime.

(** X17.  A record that lacks the first key of the path makes [parse]
    raise [KeyError], whatever the formats of the field: a missing key is
    not read as [None], also for a field that accepts ["null"]. *)
Theorem parse_missing_key_raises_KeyError :
  forall (self : CatalogField.t) (fields : list (string * json))
         (path : option (list json)) (key : string) (others : list json),
    CatalogField.path_or path (CatalogField.path self) = JStr key :: others ->
    Py.assoc key fields = None ->
    CatalogField.parse DateTime pendulum_parse self (JDict fields) path
    = Raise KeyError.
Proof.
  intros self fields path key others Hpath Hkey.
  unfold CatalogField.parse. rewrite Hpath.
  cbn [Py.reduce_getitem Py.getitem]. rewrite Hkey. reflexivity.
Qed.

End ParseFacts.

Lemma parse_missing_key_raises_KeyError_witness :
  CatalogField.parse string echo_parse nullable_date_time_field (JDict [])
    None
  = Raise KeyError.
Proof.
  exact (parse_missing_key_raises_KeyError string echo_parse
           nullable_date_time_field [] None "updated_at" [] eq_refl eq_refl).
Defined.
